(** * monitor.py: directory watcher forwarding notifications to a webhook

    A shallow embedding of [src/monitor.py] and the properties of its
    notification pipeline: URL construction, the delivery loop of
    [send_discord_message], the watchdog handler, the worker, configuration
    validation and the shutdown sequence of [main]. *)

From Stdlib Require Import String Ascii List ZArith QArith Qabs Bool Arith Lia.
Import ListNotations.

Local Close Scope Q_scope.
Local Open Scope string_scope.

(** ** Python strings

    A [str] is modelled by the bytes of its UTF-8 encoding.  The patterns the
    program searches for (["/data"], [" "], ["/"]) are ASCII, and UTF-8 never
    uses an ASCII byte inside the encoding of another code point, so searching
    the bytes finds exactly the occurrences Python finds in the code points. *)

Module PyStr.

(** [s[n:]] *)
Fixpoint drop (n : nat) (s : string) : string :=
  match n, s with
  | O, _ => s
  | S _, EmptyString => EmptyString
  | S k, String _ r => drop k r
  end.

(** [s.startswith(p)] *)
Fixpoint startswith (p s : string) : bool :=
  match p, s with
  | EmptyString, _ => true
  | String _ _, EmptyString => false
  | String a p', String b s' => Ascii.eqb a b && startswith p' s'
  end.

(** [s.replace(old, new)] for a non-empty [old]: the text is scanned from
    the left; at each position where [old] starts, [new] is emitted and the
    scan resumes after the occurrence (occurrences do not overlap).
    [skip] counts the characters of a matched occurrence still to pass. *)
Fixpoint replace_scan (old new : string) (skip : nat) (s : string) : string :=
  match s with
  | EmptyString => EmptyString
  | String c r =>
      match skip with
      | S k => replace_scan old new k r
      | O =>
          if startswith old s
          then new ++ replace_scan old new (String.length old - 1) r
          else String c (replace_scan old new 0 r)
      end
  end.

(** [s.replace("", new)]: [new] before every character and at the end. *)
Fixpoint intersperse (new : string) (s : string) : string :=
  match s with
  | EmptyString => new
  | String c r => new ++ String c (intersperse new r)
  end.

(** [s.replace(old, new)] *)
Definition replace (old new s : string) : string :=
  match old with
  | EmptyString => intersperse new s
  | String _ _ => replace_scan old new 0 s
  end.

(** [old in s] *)
Fixpoint contains (old s : string) : bool :=
  startswith old s ||
  match s with
  | EmptyString => false
  | String _ r => contains old r
  end.

(** [posixpath.basename(p)]: [i = p.rfind('/') + 1; return p[i:]].
    [cand] is the text after the last slash seen so far. *)
Fixpoint basename_from (cand p : string) : string :=
  match p with
  | EmptyString => cand
  | String c r =>
      if Ascii.eqb c "/" then basename_from r r else basename_from cand r
  end.

Definition basename (p : string) : string := basename_from p p.

End PyStr.

(** ** URL and payload (lines 78-84 of monitor.py) *)

Definition EXTERNAL_BASE : string :=
  "http://192.168.5.22:8080/files/hdd2/Octocrate".

(** Line 79:
    [url = (BASE + file_path.replace("/data", "")).replace(" ", "%20")] *)
Definition url (file_path : string) : string :=
  PyStr.replace " " "%20" (EXTERNAL_BASE ++ PyStr.replace "/data" "" file_path).

(** Line 78: [file_name = os.path.basename(file_path)] *)
Definition file_name (file_path : string) : string :=
  PyStr.basename file_path.

(** Lines 82-84: the [content] field of the JSON payload. *)
Definition payload_content (file_path : string) : string :=
  "🆕 file detected: <" ++ url file_path ++ "> in monitored directory.".

(** *** The URL as the specification words it

    Strip the watch-directory prefix (only a leading one), prepend the
    external base, percent-encode the spaces. *)

Definition strip_prefix (root path : string) : string :=
  if PyStr.startswith root path
  then PyStr.drop (String.length root) path
  else path.

Fixpoint encode_spaces (s : string) : string :=
  match s with
  | EmptyString => EmptyString
  | String c r =>
      if Ascii.eqb c " " then "%20" ++ encode_spaces r
      else String c (encode_spaces r)
  end.

Definition spec_url (base root path : string) : string :=
  encode_spaces (base ++ strip_prefix root path).

(** ** Library values the delivery loop handles *)

(** An exception instance: its class and its message. *)
Inductive pyexc : Type := PyExc (cls msg : string).

(** A Python [float], as far as the program distinguishes its values. *)
Inductive pyfloat : Type :=
| FNan
| FInf (negative : bool)
| FFin (q : Q).

(** The argument of a [time.sleep] call: the literal [5] is an [int], the
    rate-limit wait is a [float]. *)
Inductive secs : Type :=
| SecsInt (n : Z)
| SecsFloat (x : pyfloat).

(** [time.sleep] on a [float].  NaN is a [ValueError] and an infinity an
    [OverflowError].  A finite wait of at most [SLEEP_SAFE] seconds in
    magnitude is slept when it is not negative and is a [ValueError] when it
    is negative.  What happens to a longer finite wait depends on the
    platform and on the clock (it may be slept, or refused with [OSError],
    [OverflowError] or [ValueError]); that part is the parameter [long].
    [None] means that the call sleeps and returns. *)
Definition SLEEP_SAFE : Q := 1000000000 # 1.

Definition nan_error : pyexc :=
  PyExc "ValueError" "Invalid value NaN (not a number)".
Definition overflow_error : pyexc :=
  PyExc "OverflowError" "timestamp too large to convert to C _PyTime_t".
Definition negative_error : pyexc :=
  PyExc "ValueError" "sleep length must be non-negative".

Definition sleep_float (long : Q -> option pyexc) (x : pyfloat)
  : option pyexc :=
  match x with
  | FNan => Some nan_error
  | FInf _ => Some overflow_error
  | FFin q =>
      if Qle_bool (Qabs q) SLEEP_SAFE then
        if Qle_bool 0 q then None else Some negative_error
      else long q
  end.

(** An instance of the parameter, for running scenarios whose waits are
    short: every long wait is refused. *)
Definition refuse_long : Q -> option pyexc :=
  fun _ => Some (PyExc "OSError" "[Errno 22] Invalid argument").

(** What the loop observes of a [requests.Response]: [status_code], the
    result of [headers.get("Retry-After")] and [text]. *)
Record Response : Type := mkResponse {
  status_code : Z;
  retry_after : option string;
  text : string
}.

(** One call of [requests.post]: it raises an [Exception] (no response was
    received) or returns a response. *)
Inductive post_result : Type :=
| PostRaises (exc : pyexc)
| PostReturns (r : Response).

(** The remote endpoint: the outcome of the [k]-th call of [requests.post]
    made by the process, counting from 0. *)
Definition Endpoint : Type := nat -> post_result.

(** An endpoint that plays [script] and answers [final] ever after. *)
Definition scripted (script : list post_result) (final : post_result)
  : Endpoint := fun k => nth k script final.

Definition always (r : post_result) : Endpoint := fun _ => r.

(** ** Observable effects *)

Inductive level : Type := INFO | WARNING | ERROR.

Inductive log_msg : Type :=
| MsgWebhookUnset                                  (* lines 55-57 *)
| MsgNoDirectory (dir : string)                    (* lines 60-63 *)
| MsgSendError (name : string) (exc : pyexc)       (* line 89 *)
| MsgSent (name : string)                          (* line 95 *)
| MsgRateLimited (wait : pyfloat)                  (* lines 104-107 *)
| MsgUnexpected (status : Z) (body : string)       (* lines 111-113 *)
| MsgWatching (dir : string)                       (* line 147 *)
| MsgShutdown.                                     (* line 155 *)

Inductive event : Type :=
| Post (webhook : option string) (content : string)
| Log (lvl : level) (msg : log_msg)
| Sleep (d : secs)
| ObserverSchedule (dir : string) (recursive : bool)   (* line 145 *)
| ObserverStart                                        (* line 146 *)
| ThreadStart                                          (* line 150 *)
| ObserverStop.                                        (* line 156 *)

(** How a call stands: it returned, it let an exception out, or its loop is
    still running when the observation ends. *)
Inductive status : Type :=
| Returned
| Propagated (e : pyexc)
| Running.

Record run : Type := mkRun {
  trace : list event;     (* effects so far, oldest first *)
  next_attempt : nat;     (* index of the next call of [requests.post] *)
  outcome : status
}.

Definition before (evs : list event) (r : run) : run :=
  mkRun (evs ++ trace r) (next_attempt r) (outcome r).

(** ** send_discord_message (lines 68-114) *)

Section Delivery.

(** The module-level [WEBHOOK_URL], the builtin [float] applied to a [str]
    ([None] stands for [ValueError]), and what [time.sleep] does with a long
    wait. *)
Variable WEBHOOK_URL : option string.
Variable py_float : string -> option pyfloat.
Variable py_sleep_long : Q -> option pyexc.

(** Lines 99-103: [float(retry_after)], with [2.0] when the header is
    missing ([TypeError]) or does not parse ([ValueError]). *)
Definition wait_seconds (r : Response) : pyfloat :=
  match retry_after r with
  | None => FFin 2
  | Some s =>
      match py_float s with
      | Some x => x
      | None => FFin 2
      end
  end.

(** [status_code in (200, 204)] *)
Definition is_success (code : Z) : bool :=
  Z.eqb code 200 || Z.eqb code 204.

(** The [while True] loop of lines 85-114; [fuel] bounds the number of
    iterations observed. *)
Fixpoint send_loop (fuel : nat) (ep : Endpoint) (k : nat)
    (name content : string) : run :=
  match fuel with
  | O => mkRun [] k Running
  | S fuel' =>
      match ep k with
      | PostRaises exc =>
          before [Post WEBHOOK_URL content;
                  Log ERROR (MsgSendError name exc);
                  Sleep (SecsInt 5)]
                 (send_loop fuel' ep (S k) name content)
      | PostReturns r =>
          if is_success (status_code r) then
            mkRun [Post WEBHOOK_URL content; Log INFO (MsgSent name)]
                  (S k) Returned
          else if Z.eqb (status_code r) 429 then
            let wait := wait_seconds r in
            match sleep_float py_sleep_long wait with
            | Some e =>
                mkRun [Post WEBHOOK_URL content;
                       Log WARNING (MsgRateLimited wait)]
                      (S k) (Propagated e)
            | None =>
                before [Post WEBHOOK_URL content;
                        Log WARNING (MsgRateLimited wait);
                        Sleep (SecsFloat wait)]
                       (send_loop fuel' ep (S k) name content)
            end
          else
            mkRun [Post WEBHOOK_URL content;
                   Log ERROR (MsgUnexpected (status_code r) (text r))]
                  (S k) Returned
      end
  end.

Definition send_discord_message (fuel : nat) (ep : Endpoint) (k : nat)
    (file_path : string) : run :=
  send_loop fuel ep k (file_name file_path) (payload_content file_path).

End Delivery.

(** Counting effects in a trace. *)
Definition is_post (e : event) : bool :=
  match e with Post _ _ => true | _ => false end.
Definition is_sleep (e : event) : bool :=
  match e with Sleep _ => true | _ => false end.
Definition posts (t : list event) : list event := filter is_post t.
Definition sleeps (t : list event) : list event := filter is_sleep t.

(** *** A reading of decimal literals

    [decimal_float] reads [[+-]digits[.digits]] the way [float] does and
    refuses every other text (some of which [float] accepts, such as
    exponents); it is the instance the scenarios run with. *)

Definition digit_value (c : ascii) : option Z :=
  let n := Z.of_nat (nat_of_ascii c) in
  if (48 <=? n)%Z && (n <=? 57)%Z then Some (n - 48)%Z else None.

(** Reads digits, accumulating the value and counting them. *)
Fixpoint read_digits (acc : Z) (count : nat) (s : string)
  : Z * nat * string :=
  match s with
  | EmptyString => (acc, count, s)
  | String c r =>
      match digit_value c with
      | Some d => read_digits (10 * acc + d) (S count) r
      | None => (acc, count, s)
      end
  end.

Definition decimal_unsigned (s : string) : option Q :=
  let '(int_part, n_int, rest) := read_digits 0 0 s in
  match n_int, rest with
  | O, _ => None
  | S _, EmptyString => Some (inject_Z int_part)
  | S _, String c frac =>
      if Ascii.eqb c "." then
        let '(all, n_frac, rest') := read_digits int_part 0 frac in
        match n_frac, rest' with
        | S _, EmptyString =>
            Some (Qred (Qmake all (Pos.pow 10 (Pos.of_nat n_frac))))
        | _, _ => None
        end
      else None
  end.

Definition decimal_float (s : string) : option pyfloat :=
  match s with
  | String "-" r => option_map (fun q => FFin (Qred (- q))) (decimal_unsigned r)
  | String "+" r => option_map FFin (decimal_unsigned r)
  | _ => option_map FFin (decimal_unsigned s)
  end.

(** ** queue.Queue

    The items in order ([None] is the stop sentinel of line 159) and the
    count of unfinished tasks: [put] raises it, [task_done] lowers it, and
    [join] returns only when it is zero. *)

Record Queue : Type := mkQueue {
  items : list (option string);
  unfinished_tasks : nat
}.

Definition empty_queue : Queue := mkQueue [] 0.

Definition put (x : option string) (q : Queue) : Queue :=
  mkQueue (items q ++ [x]) (S (unfinished_tasks q)).

(** [get] hands out the oldest item; on an empty queue it blocks ([None]). *)
Definition get (q : Queue) : option (option string * Queue) :=
  match items q with
  | [] => None
  | x :: rest => Some (x, mkQueue rest (unfinished_tasks q))
  end.

(** [task_done] raises [ValueError] ([None]) when no task is unfinished. *)
Definition task_done (q : Queue) : option Queue :=
  match unfinished_tasks q with
  | O => None
  | S n => Some (mkQueue (items q) n)
  end.

Definition join_returns (q : Queue) : bool :=
  Nat.eqb (unfinished_tasks q) 0.

(** The file paths waiting in the queue. *)
Fixpoint pending (l : list (option string)) : list string :=
  match l with
  | [] => []
  | Some p :: rest => p :: pending rest
  | None :: rest => pending rest
  end.

(** ** NewFileHandler.on_created (lines 123-126) *)

Record FileSystemEvent : Type := mkEvent {
  is_directory : bool;
  src_path : string
}.

Definition on_created (ev : FileSystemEvent) (q : Queue) : Queue :=
  if is_directory ev then q else put (Some (src_path ev)) q.

(** The paths of the events that are not directories. *)
Fixpoint file_paths (evs : list FileSystemEvent) : list string :=
  match evs with
  | [] => []
  | ev :: rest =>
      if is_directory ev then file_paths rest
      else src_path ev :: file_paths rest
  end.

(** ** The threads of the process *)

(** Where [main] stands after start-up. *)
Inductive main_pc : Type :=
| MWatching        (* in the loop of lines 152-153 *)
| MStopping        (* after [observer.stop()], in [observer.join()] *)
| MObserverJoined  (* after line 157, before line 159 *)
| MWaitingQueue    (* after [put(None)], in [event_queue.join()] *)
| MReturned.       (* [main] returned *)

(** Where the worker thread stands. *)
Inductive worker_pc : Type :=
| WGet                       (* in [queue.get()], line 132 *)
| WSending (path : string)   (* in [send_discord_message(path)], line 135 *)
| WExited                    (* left the loop at line 134 *)
| WDied (e : pyexc).         (* an exception ended the thread *)

Record system : Type := mkSystem {
  queue : Queue;
  main_at : main_pc;
  worker_at : worker_pc;
  net : nat;                         (* calls of [requests.post] made *)
  effects : list event;              (* effects made, oldest first *)
  observed : list FileSystemEvent;   (* events given to [on_created] *)
  invoked : list string              (* arguments of [send_discord_message] *)
}.

(** What can happen next. *)
Inductive label : Type :=
| Created (ev : FileSystemEvent)   (* the observer calls [on_created] *)
| Interrupt                        (* KeyboardInterrupt in the main loop *)
| ObserverJoined                   (* [observer.join()] returns *)
| PutSentinel                      (* line 159 *)
| QueueJoined                      (* [event_queue.join()] returns *)
| WorkerGet                        (* lines 132-135: get, test, call *)
| WorkerSend (fuel : nat).         (* the call runs on; line 136 at its end *)

Definition too_many_task_done : pyexc :=
  PyExc "ValueError" "task_done() called too many times".

Section Program.

Variable WEBHOOK_URL : option string.
Variable MONITOR_DIR : string.
(** [os.path.isdir] on the file system at start-up. *)
Variable isdir : string -> bool.
Variable py_float : string -> option pyfloat.
Variable py_sleep_long : Q -> option pyexc.
Variable ep : Endpoint.

(** Truth value of an [Optional[str]]. *)
Definition truthy (s : option string) : bool :=
  match s with
  | None => false
  | Some EmptyString => false
  | Some (String _ _) => true
  end.

(** Lines 51-65. *)
Definition validate_config : list event * bool :=
  if negb (truthy WEBHOOK_URL) then
    ([Log ERROR MsgWebhookUnset], false)
  else if negb (isdir MONITOR_DIR) then
    ([Log ERROR (MsgNoDirectory MONITOR_DIR)], false)
  else ([], true).

(** The process once both threads run (after line 150). *)
Definition started (evs : list event) : system :=
  mkSystem empty_queue MWatching WGet 0 evs [] [].

(** Lines 139-150 of [main]: the effects of start-up, and the running
    system, or [None] when [main] returned at line 141. *)
Definition main_startup : list event * option system :=
  let '(logs, ok) := validate_config in
  if ok then
    let evs := (logs ++ [ObserverSchedule MONITOR_DIR false;
                         ObserverStart;
                         Log INFO (MsgWatching MONITOR_DIR);
                         ThreadStart])%list in
    (evs, Some (started evs))
  else (logs, None).

(** The observer thread hands an event to the handler; it runs until
    [observer.join()] has returned. *)
Definition observer_dispatch (ev : FileSystemEvent) (s : system)
  : option system :=
  match main_at s with
  | MWatching | MStopping =>
      Some (mkSystem (on_created ev (queue s)) (main_at s) (worker_at s)
              (net s) (effects s) (observed s ++ [ev]) (invoked s))
  | _ => None
  end.

(** Lines 151-160 of [main], one blocking call at a time; [None] when the
    step is not the one [main] stands at, or its call still blocks. *)
Definition main_shutdown (l : label) (s : system) : option system :=
  match l, main_at s with
  | Interrupt, MWatching =>
      (* lines 154-156 *)
      Some (mkSystem (queue s) MStopping (worker_at s) (net s)
              (effects s ++ [Log INFO MsgShutdown; ObserverStop])
              (observed s) (invoked s))
  | ObserverJoined, MStopping =>
      (* line 157 *)
      Some (mkSystem (queue s) MObserverJoined (worker_at s) (net s)
              (effects s) (observed s) (invoked s))
  | PutSentinel, MObserverJoined =>
      (* line 159 *)
      Some (mkSystem (put None (queue s)) MWaitingQueue (worker_at s)
              (net s) (effects s) (observed s) (invoked s))
  | QueueJoined, MWaitingQueue =>
      (* line 160 *)
      if join_returns (queue s) then
        Some (mkSystem (queue s) MReturned (worker_at s) (net s)
                (effects s) (observed s) (invoked s))
      else None
  | _, _ => None
  end.

(** Lines 129-136, the loop of [worker]: [WorkerGet] is [queue.get()], the
    test for the sentinel and the call of [send_discord_message];
    [WorkerSend fuel] lets that call run for up to [fuel] iterations of its
    loop: its effects are recorded, and the worker goes on to [task_done()]
    when the call returned, ends when it raised, and stays in the call when
    the loop is still running.  [None] when the worker stands elsewhere or
    the queue is empty. *)
Definition worker (l : label) (s : system) : option system :=
  match l, worker_at s with
  | WorkerGet, WGet =>
      match get (queue s) with
      | None => None
      | Some (None, q) =>
          Some (mkSystem q (main_at s) WExited (net s) (effects s)
                  (observed s) (invoked s))
      | Some (Some path, q) =>
          Some (mkSystem q (main_at s) (WSending path) (net s) (effects s)
                  (observed s) (invoked s ++ [path]))
      end
  | WorkerSend fuel, WSending path =>
      let r := send_discord_message WEBHOOK_URL py_float py_sleep_long fuel ep
                 (net s) path in
      match outcome r with
      | Running =>
          Some (mkSystem (queue s) (main_at s) (WSending path)
                  (next_attempt r) (effects s ++ trace r) (observed s)
                  (invoked s))
      | Propagated e =>
          Some (mkSystem (queue s) (main_at s) (WDied e) (next_attempt r)
                  (effects s ++ trace r) (observed s) (invoked s))
      | Returned =>
          match task_done (queue s) with
          | Some q =>
              Some (mkSystem q (main_at s) WGet (next_attempt r)
                      (effects s ++ trace r) (observed s) (invoked s))
          | None =>
              Some (mkSystem (queue s) (main_at s)
                      (WDied too_many_task_done) (next_attempt r)
                      (effects s ++ trace r) (observed s) (invoked s))
          end
      end
  | _, _ => None
  end.

(** One step of the process. *)
Definition step (l : label) (s : system) : option system :=
  match l with
  | Created ev => observer_dispatch ev s
  | Interrupt | ObserverJoined | PutSentinel | QueueJoined =>
      main_shutdown l s
  | WorkerGet | WorkerSend _ => worker l s
  end.

(** A schedule is any list of labels; a label that cannot happen where it
    stands is passed over. *)
Fixpoint exec (sched : list label) (s : system) : system :=
  match sched with
  | [] => s
  | l :: rest =>
      match step l s with
      | Some s' => exec rest s'
      | None => exec rest s
      end
  end.

End Program.

(** Counting start-up effects. *)
Definition starts_component (e : event) : bool :=
  match e with
  | ObserverSchedule _ _ | ObserverStart | ThreadStart => true
  | _ => false
  end.

(** ** Iterations of the delivery loop *)

(** The effects of an iteration in which [requests.post] raises [exc]. *)
Definition transport_round (wh : option string) (path : string)
    (exc : pyexc) : list event :=
  [Post wh (payload_content path);
   Log ERROR (MsgSendError (file_name path) exc);
   Sleep (SecsInt 5)].

(** The effects of an iteration that is rate limited and waits [wait]. *)
Definition rate_limit_round (wh : option string) (path : string)
    (wait : pyfloat) : list event :=
  [Post wh (payload_content path);
   Log WARNING (MsgRateLimited wait);
   Sleep (SecsFloat wait)].

(** From attempt [k] on, [requests.post] raises [excs], one after another. *)
Fixpoint raises_from (ep : Endpoint) (k : nat) (excs : list pyexc) : Prop :=
  match excs with
  | [] => True
  | exc :: rest => ep k = PostRaises exc /\ raises_from ep (S k) rest
  end.

(** From attempt [k] on, the endpoint answers 429 as many times as [waits]
    is long, each time with a wait that [time.sleep] accepts. *)
Fixpoint rate_limits_from
    (pf : string -> option pyfloat) (sl : Q -> option pyexc)
    (ep : Endpoint)
    (k : nat) (waits : list pyfloat) : Prop :=
  match waits with
  | [] => True
  | w :: rest =>
      (exists r, ep k = PostReturns r /\ status_code r = 429%Z
                 /\ wait_seconds pf r = w /\ sleep_float sl w = None)
      /\ rate_limits_from pf sl ep (S k) rest
  end.

(** ** Consistency of a running process

    What holds of every state the process reaches: the paths of the observed
    file events are those already handed to [send_discord_message] followed
    by those still queued; the count of unfinished tasks is the number of
    queued items plus one for an item taken and not marked done; and the
    sentinel is in the queue, last, exactly from line 159 until the worker
    takes it. *)

Definition inflight (w : worker_pc) : nat :=
  match w with
  | WGet => 0
  | WSending _ | WExited | WDied _ => 1
  end.

Definition sentinel_ok (s : system) : Prop :=
  match main_at s with
  | MWatching | MStopping | MObserverJoined =>
      ~ In None (items (queue s)) /\ worker_at s <> WExited
  | MWaitingQueue =>
      (exists front, items (queue s) = (front ++ [None])%list
                     /\ ~ In None front /\ worker_at s <> WExited)
      \/ (items (queue s) = [] /\ worker_at s = WExited)
  | MReturned => False
  end.

Definition consistent (s : system) : Prop :=
  file_paths (observed s) = (invoked s ++ pending (items (queue s)))%list
  /\ unfinished_tasks (queue s)
     = length (items (queue s)) + inflight (worker_at s)
  /\ sentinel_ok s.

(** ** Schedules

    [enqueue_all] is the queue after the handler saw [evs]; [drain] is the
    worker taking and delivering one path after another, each delivery
    observed for the number of iterations given for it. *)

Definition enqueue_all (evs : list FileSystemEvent) (q : Queue) : Queue :=
  fold_left (fun q ev => on_created ev q) evs q.




(** ** Answers that make the loop go round

    An outcome of [requests.post] after which the loop of
    [send_discord_message] sleeps and tries again: an exception, or a 429
    whose wait [time.sleep] accepts. *)

Definition retryable (pf : string -> option pyfloat) (sl : Q -> option pyexc)
    (pr : post_result)
  : bool :=
  match pr with
  | PostRaises _ => true
  | PostReturns r =>
      negb (is_success (status_code r))
      && Z.eqb (status_code r) 429
      && match sleep_float sl (wait_seconds pf r) with
         | None => true
         | Some _ => false
         end
  end.

(** An outcome that ends the loop with a normal return: a response whose
    status is not 429 (or is 200 or 204). *)
Definition final (pr : post_result) : bool :=
  match pr with
  | PostRaises _ => false
  | PostReturns r =>
      is_success (status_code r) || negb (Z.eqb (status_code r) 429)
  end.

(** The path the worker is delivering, if any. *)
Definition in_flight (w : worker_pc) : list string :=
  match w with
  | WSending p => [p]
  | WGet | WExited | WDied _ => []
  end.

(** ** Reading the effects

    [notifications wh ds] is what the POSTs of the deliveries [ds] look like:
    for each path, in order, as many POSTs of its payload as it had attempts.
    [post_sleep_order] keeps the POSTs and sleeps of a trace, in order, as
    [true] and [false]; [alternating n] is POST, sleep, POST, ..., POST with
    [n] sleeps. *)


Definition post_sleep_order (t : list event) : list bool :=
  map is_post (filter (fun e => is_post e || is_sleep e) t).

Fixpoint alternating (n : nat) : list bool :=
  match n with
  | O => [true]
  | S m => true :: false :: alternating m
  end.

(** * Properties *)

(** ** Strings *)

Example replace_overlap : PyStr.replace "aa" "b" "aaa" = "ba".
Proof. reflexivity. Qed.

Example replace_empty : PyStr.replace "" "-" "abc" = "-a-b-c-".
Proof. reflexivity. Qed.

Example basename_report :
  file_name "/data/sub dir/report.txt" = "report.txt".
Proof. reflexivity. Qed.

Example basename_plain : file_name "report.txt" = "report.txt".
Proof. reflexivity. Qed.

Lemma startswith_app (p rest : string) : PyStr.startswith p (p ++ rest) = true.
Proof.
  induction p as [|a p IH]; simpl; [reflexivity|].
  now rewrite Ascii.eqb_refl.
Qed.

Lemma replace_scan_skip (old new p rest : string) :
  PyStr.replace_scan old new (String.length p) (p ++ rest)
  = PyStr.replace_scan old new 0 rest.
Proof.
  induction p as [|a p IH]; simpl; [reflexivity | exact IH].
Qed.

Lemma replace_scan_absent (old new s : string) :
  PyStr.contains old s = false -> PyStr.replace_scan old new 0 s = s.
Proof.
  induction s as [|c r IH]; [reflexivity|].
  intros H. cbn [PyStr.contains] in H.
  apply orb_false_iff in H as [Hhere Hlater].
  cbn [PyStr.replace_scan]. rewrite Hhere. f_equal.
  apply IH.
  destruct r; cbn [PyStr.contains] in *; exact Hlater.
Qed.

(** Where the text starts with [old] and holds no other occurrence, [replace]
    removes that leading occurrence and nothing else. *)
Lemma replace_leading_once (a : ascii) (o new rest : string) :
  PyStr.contains (String a o) rest = false ->
  PyStr.replace (String a o) new (String a o ++ rest) = new ++ rest.
Proof.
  intros Habs. unfold PyStr.replace.
  change (String a o ++ rest) with (String a (o ++ rest)).
  cbn [PyStr.replace_scan].
  change (String a (o ++ rest)) with (String a o ++ rest).
  rewrite startswith_app. f_equal.
  cbn [String.length]. rewrite Nat.sub_1_r. cbn [Nat.pred].
  rewrite replace_scan_skip. now apply replace_scan_absent.
Qed.

(** The second [replace] of line 79 turns every space into [%20] and leaves
    every other character as it is. *)
Lemma replace_space_encode (s : string) :
  PyStr.replace " " "%20" s = encode_spaces s.
Proof.
  unfold PyStr.replace.
  induction s as [|c r IH]; [reflexivity|].
  cbn [PyStr.replace_scan PyStr.startswith encode_spaces String.length Nat.sub].
  rewrite andb_true_r, Ascii.eqb_sym.
  destruct (Ascii.eqb c " "); now rewrite IH.
Qed.

(** For a path under [/data] that holds no further [/data], the code builds
    the URL the specification describes. *)
Lemma url_single_prefix (rest : string) :
  PyStr.contains "/data" rest = false ->
  url ("/data" ++ rest) = spec_url EXTERNAL_BASE "/data" ("/data" ++ rest).
Proof.
  intros Habs. unfold url, spec_url.
  rewrite replace_space_encode. do 2 f_equal.
  rewrite (replace_leading_once "/" "data" "" rest Habs).
  reflexivity.
Qed.

Example url_report :
  url "/data/sub dir/report.txt"
  = "http://192.168.5.22:8080/files/hdd2/Octocrate/sub%20dir/report.txt".
Proof. reflexivity. Qed.

Example spec_url_report :
  spec_url "http://host/base" "/data" "/data/sub dir/report.txt"
  = "http://host/base/sub%20dir/report.txt".
Proof. reflexivity. Qed.

(** C1.  The claim: the URL is the path with only its leading watch-directory
    prefix stripped, behind the external base, spaces percent-encoded.  The
    code removes every occurrence of [/data]: for the file [data.csv] in the
    watch directory [/data] it builds [...Octocrate.csv], while stripping the
    leading prefix gives [...Octocrate/data.csv]. *)
Theorem url_removes_every_occurrence :
  url "/data/data.csv" = "http://192.168.5.22:8080/files/hdd2/Octocrate.csv"
  /\ spec_url EXTERNAL_BASE "/data" "/data/data.csv"
     = "http://192.168.5.22:8080/files/hdd2/Octocrate/data.csv"
  /\ url "/data/data.csv" <> spec_url EXTERNAL_BASE "/data" "/data/data.csv".
Proof.
  repeat split; try reflexivity.
  intros H. vm_compute in H. discriminate H.
Qed.

(** ** The delivery loop *)

Example decimal_15 : decimal_float "1.5" = Some (FFin (3 # 2)).
Proof. reflexivity. Qed.

Example decimal_m1 : decimal_float "-1" = Some (FFin (-1 # 1)).
Proof. reflexivity. Qed.

Example decimal_bad : decimal_float "soon" = None.
Proof. reflexivity. Qed.

Example sleep_15 : sleep_float refuse_long (FFin (3 # 2)) = None.
Proof. reflexivity. Qed.

Example sleep_m1 :
  sleep_float refuse_long (FFin (-1 # 1)) = Some negative_error.
Proof. reflexivity. Qed.

Lemma before_before (a b : list event) (r : run) :
  before a (before b r) = before (a ++ b)%list r.
Proof. unfold before; simpl. now rewrite app_assoc. Qed.

Lemma before_nil (r : run) : before [] r = r.
Proof. now destruct r. Qed.

Section DeliveryFacts.

Variable wh : option string.
Variable pf : string -> option pyfloat.
Variable sl : Q -> option pyexc.

Lemma is_success_false (code : Z) :
  code <> 200%Z -> code <> 204%Z -> is_success code = false.
Proof.
  intros H1 H2. unfold is_success.
  apply Z.eqb_neq in H1, H2. now rewrite H1, H2.
Qed.

(** An iteration whose POST raises: log, sleep 5, next iteration. *)
Lemma send_raises (fuel : nat) (ep : Endpoint) (k : nat) (path : string)
    (exc : pyexc) :
  ep k = PostRaises exc ->
  send_discord_message wh pf sl (S fuel) ep k path
  = before (transport_round wh path exc)
           (send_discord_message wh pf sl fuel ep (S k) path).
Proof.
  intros H. unfold send_discord_message. cbn [send_loop]. now rewrite H.
Qed.

(** An iteration answered 200 or 204: log and return. *)
Lemma send_success (fuel : nat) (ep : Endpoint) (k : nat) (path : string)
    (r : Response) :
  ep k = PostReturns r ->
  is_success (status_code r) = true ->
  send_discord_message wh pf sl (S fuel) ep k path
  = mkRun [Post wh (payload_content path); Log INFO (MsgSent (file_name path))]
          (S k) Returned.
Proof.
  intros H Hs. unfold send_discord_message. cbn [send_loop].
  now rewrite H, Hs.
Qed.

(** An iteration answered 429 with a wait [time.sleep] accepts. *)
Lemma send_rate_limited (fuel : nat) (ep : Endpoint) (k : nat) (path : string)
    (r : Response) :
  ep k = PostReturns r ->
  status_code r = 429%Z ->
  sleep_float sl (wait_seconds pf r) = None ->
  send_discord_message wh pf sl (S fuel) ep k path
  = before (rate_limit_round wh path (wait_seconds pf r))
           (send_discord_message wh pf sl fuel ep (S k) path).
Proof.
  intros H Hc Hs. unfold send_discord_message. cbn [send_loop].
  rewrite H, Hc. cbn [is_success Z.eqb Pos.eqb orb]. now rewrite Hs.
Qed.

(** An iteration answered 429 with a wait [time.sleep] refuses. *)
Lemma send_rate_limited_raises (fuel : nat) (ep : Endpoint) (k : nat)
    (path : string) (r : Response) (e : pyexc) :
  ep k = PostReturns r ->
  status_code r = 429%Z ->
  sleep_float sl (wait_seconds pf r) = Some e ->
  send_discord_message wh pf sl (S fuel) ep k path
  = mkRun [Post wh (payload_content path);
           Log WARNING (MsgRateLimited (wait_seconds pf r))]
          (S k) (Propagated e).
Proof.
  intros H Hc Hs. unfold send_discord_message. cbn [send_loop].
  rewrite H, Hc. cbn [is_success Z.eqb Pos.eqb orb]. now rewrite Hs.
Qed.

(** An iteration answered with any other status: log and return. *)
Lemma send_rejected (fuel : nat) (ep : Endpoint) (k : nat) (path : string)
    (r : Response) :
  ep k = PostReturns r ->
  status_code r <> 200%Z -> status_code r <> 204%Z ->
  status_code r <> 429%Z ->
  send_discord_message wh pf sl (S fuel) ep k path
  = mkRun [Post wh (payload_content path);
           Log ERROR (MsgUnexpected (status_code r) (text r))]
          (S k) Returned.
Proof.
  intros H H200 H204 H429. unfold send_discord_message. cbn [send_loop].
  rewrite H, (is_success_false _ H200 H204).
  apply Z.eqb_neq in H429. now rewrite H429.
Qed.

Lemma send_transport_rounds (excs : list pyexc) (fuel : nat) (ep : Endpoint)
    (k : nat) (path : string) :
  raises_from ep k excs ->
  send_discord_message wh pf sl (length excs + fuel) ep k path
  = before (flat_map (transport_round wh path) excs)
           (send_discord_message wh pf sl fuel ep (length excs + k) path).
Proof.
  revert k. induction excs as [|exc rest IH]; intros k H.
  - simpl. now rewrite before_nil.
  - destruct H as [Hk Hrest].
    cbn [length Nat.add flat_map].
    rewrite (send_raises _ _ _ _ _ Hk), (IH (S k) Hrest), before_before.
    now rewrite Nat.add_succ_r.
Qed.

Lemma send_rate_limit_rounds (waits : list pyfloat) (fuel : nat)
    (ep : Endpoint) (k : nat) (path : string) :
  rate_limits_from pf sl ep k waits ->
  send_discord_message wh pf sl (length waits + fuel) ep k path
  = before (flat_map (rate_limit_round wh path) waits)
           (send_discord_message wh pf sl fuel ep (length waits + k) path).
Proof.
  revert k. induction waits as [|w rest IH]; intros k H.
  - simpl. now rewrite before_nil.
  - destruct H as [(r & Hk & Hc & Hw & Hs) Hrest].
    cbn [length Nat.add flat_map]. subst w.
    rewrite (send_rate_limited _ _ _ _ _ Hk Hc Hs), (IH (S k) Hrest),
      before_before.
    now rewrite Nat.add_succ_r.
Qed.

(** Every POST of a delivery carries the payload built from the path. *)
Lemma send_loop_posts (fuel : nat) (ep : Endpoint) (k : nat)
    (name content : string) (e : event) :
  In e (posts (trace (send_loop wh pf sl fuel ep k name content))) ->
  e = Post wh content.
Proof.
  revert k. induction fuel as [|fuel IH]; intros k; cbn [send_loop].
  - simpl. tauto.
  - destruct (ep k) as [exc|r].
    + simpl. intros [H|H]; [now symmetry | now apply (IH (S k))].
    + destruct (is_success (status_code r)).
      { simpl. intros [H|[]]. now symmetry. }
      destruct (Z.eqb (status_code r) 429).
      * destruct (sleep_float sl (wait_seconds pf r)).
        { simpl. intros [H|[]]. now symmetry. }
        simpl. intros [H|H]; [now symmetry | now apply (IH (S k))].
      * simpl. intros [H|[]]. now symmetry.
Qed.

(** An exception leaves the loop only from the [time.sleep] of line 108. *)
Lemma send_loop_propagated (fuel : nat) (ep : Endpoint) (k : nat)
    (name content : string) (e : pyexc) :
  outcome (send_loop wh pf sl fuel ep k name content) = Propagated e ->
  exists k' r, ep k' = PostReturns r /\ status_code r = 429%Z
               /\ sleep_float sl (wait_seconds pf r) = Some e.
Proof.
  revert k. induction fuel as [|fuel IH]; intros k; cbn [send_loop].
  - discriminate.
  - destruct (ep k) as [exc|r] eqn:Hk.
    + simpl. apply IH.
    + destruct (is_success (status_code r)); [discriminate|].
      destruct (Z.eqb (status_code r) 429) eqn:Hc; [|discriminate].
      apply Z.eqb_eq in Hc.
      destruct (sleep_float sl (wait_seconds pf r)) as [e'|] eqn:Hs.
      * simpl. intros [= <-]. now exists k, r.
      * simpl. apply IH.
Qed.

(** Where every rate-limit wait is one [time.sleep] accepts, the call
    returns or is still retrying: no exception reaches the caller. *)
Lemma send_no_exception (fuel : nat) (ep : Endpoint) (k : nat)
    (path : string) :
  (forall k' r, ep k' = PostReturns r -> status_code r = 429%Z ->
                sleep_float sl (wait_seconds pf r) = None) ->
  outcome (send_discord_message wh pf sl fuel ep k path) = Returned
  \/ outcome (send_discord_message wh pf sl fuel ep k path) = Running.
Proof.
  intros Hok.
  destruct (outcome (send_discord_message wh pf sl fuel ep k path)) eqn:Ho; auto.
  apply send_loop_propagated in Ho as (k' & r & Hk & Hc & Hs).
  rewrite (Hok k' r Hk Hc) in Hs. discriminate.
Qed.

End DeliveryFacts.

Lemma send_always_raises (wh : option string)
    (pf : string -> option pyfloat) (sl : Q -> option pyexc)
    (exc : pyexc) (fuel k : nat) (path : string) :
  outcome (send_discord_message wh pf sl fuel (always (PostRaises exc)) k path)
  = Running.
Proof.
  revert k. induction fuel as [|fuel IH]; intros k; [reflexivity|].
  rewrite (send_raises wh pf sl fuel (always (PostRaises exc)) k path exc
             eq_refl).
  simpl. apply IH.
Qed.

Lemma send_always_rate_limited (wh : option string)
    (pf : string -> option pyfloat) (sl : Q -> option pyexc)
    (r : Response) (fuel k : nat)
    (path : string) :
  status_code r = 429%Z ->
  sleep_float sl (wait_seconds pf r) = None ->
  outcome (send_discord_message wh pf sl fuel (always (PostReturns r)) k path)
  = Running.
Proof.
  intros Hc Hs. revert k.
  induction fuel as [|fuel IH]; intros k; [reflexivity|].
  rewrite (send_rate_limited wh pf sl fuel (always (PostReturns r)) k path r
             eq_refl Hc Hs).
  simpl. apply IH.
Qed.

(** What the rate-limit branch does where [time.sleep] accepts the wait: the
    wait is [float] of the [Retry-After] header, or 2.0 when the header is
    missing or does not parse; the loop sleeps that long and tries again, as
    many times as the endpoint answers 429 (against an endpoint that always
    does, the call never returns).  Against an endpoint that answers 429 with
    [Retry-After: 1.5] once and then 204, the call posts twice, sleeps once,
    for 1.5, and returns. *)
Theorem rate_limit_retry (wh : option string)
    (pf : string -> option pyfloat) (sl : Q -> option pyexc) :
  (forall r, retry_after r = None -> wait_seconds pf r = FFin 2)
  /\ (forall r s, retry_after r = Some s -> pf s = None ->
        wait_seconds pf r = FFin 2)
  /\ (forall r s x, retry_after r = Some s -> pf s = Some x ->
        wait_seconds pf r = x)
  /\ (forall fuel ep k path r,
        ep k = PostReturns r -> status_code r = 429%Z ->
        sleep_float sl (wait_seconds pf r) = None ->
        send_discord_message wh pf sl (S fuel) ep k path
        = before (rate_limit_round wh path (wait_seconds pf r))
                 (send_discord_message wh pf sl fuel ep (S k) path))
  /\ (forall waits fuel ep k path,
        rate_limits_from pf sl ep k waits ->
        send_discord_message wh pf sl (length waits + fuel) ep k path
        = before (flat_map (rate_limit_round wh path) waits)
                 (send_discord_message wh pf sl fuel ep (length waits + k) path))
  /\ (forall r fuel k path,
        status_code r = 429%Z -> sleep_float sl (wait_seconds pf r) = None ->
        outcome (send_discord_message wh pf sl fuel (always (PostReturns r)) k
                   path) = Running)
  /\ (forall fuel path body1 hdr2 body2,
        pf "1.5" = Some (FFin (3 # 2)) ->
        let ep := scripted [PostReturns (mkResponse 429 (Some "1.5") body1)]
                           (PostReturns (mkResponse 204 hdr2 body2)) in
        let r := send_discord_message wh pf sl (2 + fuel) ep 0 path in
        r = mkRun [Post wh (payload_content path);
                   Log WARNING (MsgRateLimited (FFin (3 # 2)));
                   Sleep (SecsFloat (FFin (3 # 2)));
                   Post wh (payload_content path);
                   Log INFO (MsgSent (file_name path))] 2 Returned
        /\ length (posts (trace r)) = 2
        /\ sleeps (trace r) = [Sleep (SecsFloat (FFin (3 # 2)))]).
Proof.
  repeat apply conj.
  - intros r H. unfold wait_seconds. now rewrite H.
  - intros r s H Hp. unfold wait_seconds. now rewrite H, Hp.
  - intros r s x H Hp. unfold wait_seconds. now rewrite H, Hp.
  - intros. now apply send_rate_limited.
  - intros. now apply send_rate_limit_rounds.
  - intros. now apply send_always_rate_limited.
  - intros fuel path body1 hdr2 body2 Hp ep r.
    assert (Hr : r = mkRun [Post wh (payload_content path);
                   Log WARNING (MsgRateLimited (FFin (3 # 2)));
                   Sleep (SecsFloat (FFin (3 # 2)));
                   Post wh (payload_content path);
                   Log INFO (MsgSent (file_name path))] 2 Returned).
    { subst r ep. unfold send_discord_message.
      cbn [send_loop scripted nth Nat.add status_code is_success Z.eqb
           Pos.eqb orb wait_seconds retry_after].
      rewrite Hp. reflexivity. }
    rewrite Hr. repeat split.
Qed.

Lemma rate_limit_retry_witness :
  decimal_float "1.5" = Some (FFin (3 # 2))
  /\ sleeps (trace (send_discord_message (Some "https://discord.test/hook")
                      decimal_float refuse_long 2
                      (scripted [PostReturns (mkResponse 429 (Some "1.5") "")]
                                (PostReturns (mkResponse 204 None "")))
                      0 "/data/a.txt"))
     = [Sleep (SecsFloat (FFin (3 # 2)))].
Proof.
  split; [reflexivity|].
  apply (proj2 (proj2 (proj2 (proj2 (proj2 (proj2
           (rate_limit_retry (Some "https://discord.test/hook")
              decimal_float refuse_long)))))) 0 "/data/a.txt" "" None "" eq_refl).
Defined.

(** C3.  The claim: on every 429 the loop sleeps the wait read from
    [Retry-After] and tries again, without bound.  The code calls
    [time.sleep] on the parsed value as it is: when the header parses to a
    wait [time.sleep] refuses (a negative number, NaN, an infinity), the
    delivery ends there with the exception, after one POST and the warning,
    without sleeping and without another attempt, whatever the endpoint
    would answer next. *)
Theorem refused_wait_is_not_retried (wh : option string)
    (pf : string -> option pyfloat) (sl : Q -> option pyexc) (fuel : nat)
    (ep : Endpoint) (k : nat) (path : string) (r : Response) (s : string)
    (x : pyfloat) (e : pyexc) :
  ep k = PostReturns r ->
  status_code r = 429%Z ->
  retry_after r = Some s ->
  pf s = Some x ->
  sleep_float sl x = Some e ->
  send_discord_message wh pf sl (S fuel) ep k path
  = mkRun [Post wh (payload_content path); Log WARNING (MsgRateLimited x)]
          (S k) (Propagated e)
  /\ length (posts (trace (send_discord_message wh pf sl (S fuel) ep k
                             path))) = 1
  /\ sleeps (trace (send_discord_message wh pf sl (S fuel) ep k path)) = [].
Proof.
  intros Hk Hc Hh Hp Hs.
  assert (Hw : wait_seconds pf r = x).
  { unfold wait_seconds. now rewrite Hh, Hp. }
  rewrite (send_rate_limited_raises wh pf sl fuel ep k path r e Hk Hc);
    [|now rewrite Hw].
  rewrite Hw. repeat split.
Qed.

Lemma refused_wait_is_not_retried_witness :
  send_discord_message (Some "https://discord.test/hook") decimal_float
    refuse_long 7
    (scripted [PostReturns (mkResponse 429 (Some "-1") "")]
              (PostReturns (mkResponse 204 None "")))
    0 "/data/a.txt"
  = mkRun [Post (Some "https://discord.test/hook")
             (payload_content "/data/a.txt");
           Log WARNING (MsgRateLimited (FFin (-1 # 1)))]
          1 (Propagated negative_error).
Proof.
  apply (refused_wait_is_not_retried (Some "https://discord.test/hook")
           decimal_float refuse_long 6
           (scripted [PostReturns (mkResponse 429 (Some "-1") "")]
                     (PostReturns (mkResponse 204 None "")))
           0 "/data/a.txt" (mkResponse 429 (Some "-1") "") "-1"
           (FFin (-1 # 1)) negative_error);
    reflexivity.
Defined.

(** C4.  When [requests.post] raises, the loop logs the error, sleeps 5 and
    tries again, however many times in a row that happens and always with the
    same delay (against an endpoint that always raises, the call never
    returns).  Against an endpoint that raises twice and then answers 200,
    the call posts three times, sleeps 5 after each failure, and returns. *)
Theorem transport_failure_retries (wh : option string)
    (pf : string -> option pyfloat) (sl : Q -> option pyexc) :
  (forall fuel ep k path exc,
     ep k = PostRaises exc ->
     send_discord_message wh pf sl (S fuel) ep k path
     = before [Post wh (payload_content path);
               Log ERROR (MsgSendError (file_name path) exc);
               Sleep (SecsInt 5)]
              (send_discord_message wh pf sl fuel ep (S k) path))
  /\ (forall excs fuel ep k path,
        raises_from ep k excs ->
        send_discord_message wh pf sl (length excs + fuel) ep k path
        = before (flat_map (transport_round wh path) excs)
                 (send_discord_message wh pf sl fuel ep (length excs + k) path))
  /\ (forall exc fuel k path,
        outcome (send_discord_message wh pf sl fuel (always (PostRaises exc)) k
                   path) = Running)
  /\ (forall fuel path e1 e2 hdr body,
        let ep := scripted [PostRaises e1; PostRaises e2]
                           (PostReturns (mkResponse 200 hdr body)) in
        let r := send_discord_message wh pf sl (3 + fuel) ep 0 path in
        r = mkRun [Post wh (payload_content path);
                   Log ERROR (MsgSendError (file_name path) e1);
                   Sleep (SecsInt 5);
                   Post wh (payload_content path);
                   Log ERROR (MsgSendError (file_name path) e2);
                   Sleep (SecsInt 5);
                   Post wh (payload_content path);
                   Log INFO (MsgSent (file_name path))] 3 Returned
        /\ length (posts (trace r)) = 3
        /\ sleeps (trace r) = [Sleep (SecsInt 5); Sleep (SecsInt 5)]).
Proof.
  repeat apply conj.
  - intros. now apply send_raises.
  - intros. now apply send_transport_rounds.
  - intros. apply send_always_raises.
  - intros fuel path e1 e2 hdr body ep r.
    subst r ep. unfold send_discord_message. cbn. repeat split.
Qed.

Lemma transport_failure_retries_witness :
  raises_from (scripted [PostRaises (PyExc "ConnectionError" "refused");
                         PostRaises (PyExc "ConnectionError" "refused")]
                        (PostReturns (mkResponse 200 None "")))
              0
              [PyExc "ConnectionError" "refused";
               PyExc "ConnectionError" "refused"]
  /\ send_discord_message None decimal_float refuse_long 3
       (scripted [PostRaises (PyExc "ConnectionError" "refused");
                  PostRaises (PyExc "ConnectionError" "refused")]
                 (PostReturns (mkResponse 200 None "")))
       0 "/data/a.txt"
     = before (flat_map (transport_round None "/data/a.txt")
                 [PyExc "ConnectionError" "refused";
                  PyExc "ConnectionError" "refused"])
              (send_discord_message None decimal_float refuse_long 1
                 (scripted [PostRaises (PyExc "ConnectionError" "refused");
                            PostRaises (PyExc "ConnectionError" "refused")]
                           (PostReturns (mkResponse 200 None "")))
                 2 "/data/a.txt").
Proof.
  split; [simpl; auto|].
  apply (proj1 (proj2 (transport_failure_retries None decimal_float refuse_long))
           [PyExc "ConnectionError" "refused";
            PyExc "ConnectionError" "refused"] 1).
  simpl; auto.
Defined.

(** C5.  On a status other than 200, 204 and 429 the loop logs the status and
    the body as an error and ends: one POST, no sleep, no further attempt,
    whatever the endpoint would answer next.  So it is for status 500. *)
Theorem other_status_drops (wh : option string)
    (pf : string -> option pyfloat) (sl : Q -> option pyexc) :
  (forall fuel ep k path r,
     ep k = PostReturns r ->
     status_code r <> 200%Z -> status_code r <> 204%Z ->
     status_code r <> 429%Z ->
     send_discord_message wh pf sl (S fuel) ep k path
     = mkRun [Post wh (payload_content path);
              Log ERROR (MsgUnexpected (status_code r) (text r))]
             (S k) Returned)
  /\ (forall fuel ep path hdr body,
        ep 0 = PostReturns (mkResponse 500 hdr body) ->
        let r := send_discord_message wh pf sl (S fuel) ep 0 path in
        trace r = [Post wh (payload_content path);
                   Log ERROR (MsgUnexpected 500 body)]
        /\ length (posts (trace r)) = 1
        /\ sleeps (trace r) = []
        /\ next_attempt r = 1
        /\ outcome r = Returned).
Proof.
  split.
  - intros. now apply send_rejected.
  - intros fuel ep path hdr body H r. subst r.
    rewrite (send_rejected wh pf sl fuel ep 0 path _ H); simpl;
      repeat split; discriminate.
Qed.

Lemma other_status_drops_witness :
  always (PostReturns (mkResponse 500 None "Internal Server Error")) 0
  = PostReturns (mkResponse 500 None "Internal Server Error")
  /\ length (posts (trace (send_discord_message None decimal_float refuse_long 5
                             (always (PostReturns
                                        (mkResponse 500 None
                                           "Internal Server Error")))
                             0 "/data/a.txt"))) = 1.
Proof.
  split; [reflexivity|].
  apply (proj2 (other_status_drops None decimal_float refuse_long) 4
           (always (PostReturns (mkResponse 500 None "Internal Server Error")))
           "/data/a.txt" None "Internal Server Error" eq_refl).
Defined.

(** C6.  The claim: no exception ever reaches the caller, whatever the
    endpoint answers.  The code calls [time.sleep] on the parsed
    [Retry-After] value outside any [try]: when the header parses to a value
    [time.sleep] refuses (a negative number, NaN, an infinity), the
    exception [time.sleep] raises leaves [send_discord_message]. *)
Theorem sleep_error_reaches_caller (wh : option string)
    (pf : string -> option pyfloat) (sl : Q -> option pyexc)
    (fuel : nat) (ep : Endpoint) (k : nat)
    (path : string) (r : Response) (s : string) (x : pyfloat) (e : pyexc) :
  ep k = PostReturns r ->
  status_code r = 429%Z ->
  retry_after r = Some s ->
  pf s = Some x ->
  sleep_float sl x = Some e ->
  outcome (send_discord_message wh pf sl (S fuel) ep k path) = Propagated e.
Proof.
  intros Hk Hc Hh Hp Hs.
  assert (Hw : wait_seconds pf r = x).
  { unfold wait_seconds. now rewrite Hh, Hp. }
  rewrite (send_rate_limited_raises wh pf sl fuel ep k path r e Hk Hc).
  - reflexivity.
  - now rewrite Hw.
Qed.

Lemma sleep_error_reaches_caller_witness :
  outcome (send_discord_message (Some "https://discord.test/hook")
             decimal_float refuse_long 1
             (always (PostReturns (mkResponse 429 (Some "-1") "")))
             0 "/data/a.txt")
  = Propagated negative_error.
Proof.
  apply (sleep_error_reaches_caller (Some "https://discord.test/hook")
           decimal_float refuse_long 0
           (always (PostReturns (mkResponse 429 (Some "-1") "")))
           0 "/data/a.txt" (mkResponse 429 (Some "-1") "") "-1"
           (FFin (-1 # 1)) negative_error);
    reflexivity.
Defined.

(** C10.  The URL is a function of the path alone: every POST made for a
    path, under whatever endpoint behaviour, attempt count or observation
    length, carries the same payload, built around [url path]. *)
Theorem url_deterministic (wh : option string)
    (pf : string -> option pyfloat) (sl : Q -> option pyexc)
    (fuel1 fuel2 : nat) (ep1 ep2 : Endpoint) (k1 k2 : nat) (path : string)
    (e1 e2 : event) :
  In e1 (posts (trace (send_discord_message wh pf sl fuel1 ep1 k1 path))) ->
  In e2 (posts (trace (send_discord_message wh pf sl fuel2 ep2 k2 path))) ->
  e1 = e2
  /\ e1 = Post wh ("🆕 file detected: <" ++ url path
                   ++ "> in monitored directory.").
Proof.
  intros H1 H2.
  apply send_loop_posts in H1, H2. subst e1 e2. split; reflexivity.
Qed.

Lemma url_deterministic_witness :
  Post None (payload_content "/data/sub dir/report.txt")
  = Post None
      "🆕 file detected: <http://192.168.5.22:8080/files/hdd2/Octocrate/sub%20dir/report.txt> in monitored directory.".
Proof.
  refine (proj2 (url_deterministic None decimal_float refuse_long 1 2
                   (always (PostReturns (mkResponse 204 None "")))
                   (always (PostRaises (PyExc "Timeout" "timed out")))
                   0 7 "/data/sub dir/report.txt"
                   (Post None (payload_content "/data/sub dir/report.txt"))
                   (Post None (payload_content "/data/sub dir/report.txt"))
                   _ _)); simpl; auto.
Defined.

(** ** Configuration and the handler *)

(** C8.  With the webhook URL unset or empty, or a watch directory that is
    not an existing directory, validation fails with one error message
    naming the cause, and [main] returns at once: no observer is scheduled
    or started, no worker thread is started, nothing is posted. *)
Theorem invalid_config_starts_nothing (wh : option string)
    (monitor_dir : string) (isdir : string -> bool) :
  wh = None \/ wh = Some "" \/ isdir monitor_dir = false ->
  snd (validate_config wh monitor_dir isdir) = false
  /\ (fst (validate_config wh monitor_dir isdir) = [Log ERROR MsgWebhookUnset]
      \/ fst (validate_config wh monitor_dir isdir)
         = [Log ERROR (MsgNoDirectory monitor_dir)])
  /\ main_startup wh monitor_dir isdir
     = (fst (validate_config wh monitor_dir isdir), None)
  /\ filter starts_component (fst (main_startup wh monitor_dir isdir)) = []
  /\ posts (fst (main_startup wh monitor_dir isdir)) = [].
Proof.
  intros H. unfold main_startup, validate_config.
  destruct (truthy wh) eqn:Ht; simpl.
  - destruct H as [-> | [-> | H]]; try discriminate Ht.
    rewrite H. simpl. repeat split. now right.
  - repeat split. now left.
Qed.

Lemma invalid_config_starts_nothing_witness :
  main_startup None "/data" (fun _ => true)
  = ([Log ERROR MsgWebhookUnset], None).
Proof.
  apply (invalid_config_starts_nothing None "/data" (fun _ => true)).
  left; reflexivity.
Defined.

(** With a webhook URL and an existing directory, [main] schedules the
    observer on the directory, not recursively, starts it, and starts the
    worker. *)
Lemma valid_config_starts (c : ascii) (wh' monitor_dir : string)
    (isdir : string -> bool) :
  isdir monitor_dir = true ->
  main_startup (Some (String c wh')) monitor_dir isdir
  = ([ObserverSchedule monitor_dir false; ObserverStart;
      Log INFO (MsgWatching monitor_dir); ThreadStart],
     Some (started [ObserverSchedule monitor_dir false; ObserverStart;
                    Log INFO (MsgWatching monitor_dir); ThreadStart])).
Proof.
  intros H. unfold main_startup, validate_config. simpl. now rewrite H.
Qed.

(** C9.  For a creation event of a directory the handler leaves the queue as
    it is; for any other creation event it appends exactly one item, the
    event's [src_path], behind the items already queued. *)
Theorem on_created_enqueues (ev : FileSystemEvent) (q : Queue) :
  (is_directory ev = true -> on_created ev q = q)
  /\ (is_directory ev = false ->
      on_created ev q
      = mkQueue (items q ++ [Some (src_path ev)]) (S (unfinished_tasks q))).
Proof.
  unfold on_created, put. split; intros ->; reflexivity.
Qed.

Lemma on_created_enqueues_witness :
  on_created (mkEvent true "/data/sub") (mkQueue [Some "/data/a.txt"] 1)
  = mkQueue [Some "/data/a.txt"] 1
  /\ on_created (mkEvent false "/data/b.txt") (mkQueue [Some "/data/a.txt"] 1)
     = mkQueue [Some "/data/a.txt"; Some "/data/b.txt"] 2.
Proof.
  split.
  - apply (proj1 (on_created_enqueues (mkEvent true "/data/sub")
                    (mkQueue [Some "/data/a.txt"] 1))).
    reflexivity.
  - apply (proj2 (on_created_enqueues (mkEvent false "/data/b.txt")
                    (mkQueue [Some "/data/a.txt"] 1))).
    reflexivity.
Defined.

(** ** The running process *)

Lemma file_paths_app (a b : list FileSystemEvent) :
  file_paths (a ++ b) = (file_paths a ++ file_paths b)%list.
Proof.
  induction a as [|ev a IH]; simpl; [reflexivity|].
  destruct (is_directory ev); simpl; now rewrite IH.
Qed.

Lemma pending_app (a b : list (option string)) :
  pending (a ++ b) = (pending a ++ pending b)%list.
Proof.
  induction a as [|[p|] a IH]; simpl; now rewrite ?IH.
Qed.

Lemma started_consistent (evs : list event) : consistent (started evs).
Proof.
  unfold consistent, sentinel_ok; simpl. repeat split; auto; discriminate.
Qed.

(** While the sentinel is awaited, [event_queue.join()] cannot return: either
    the sentinel is still queued, or the worker took it and left without
    [task_done]; the count of unfinished tasks is at least one either way. *)
Lemma join_blocked (s : system) :
  consistent s -> main_at s = MWaitingQueue -> join_returns (queue s) = false.
Proof.
  intros (_ & Hc & Hs) Hm. unfold sentinel_ok in Hs. rewrite Hm in Hs.
  unfold join_returns. rewrite Hc. apply Nat.eqb_neq.
  destruct Hs as [(front & -> & _ & _) | [_ ->]].
  - rewrite length_app. simpl. lia.
  - simpl. lia.
Qed.

Section ProcessFacts.

Variable wh : option string.
Variable pf : string -> option pyfloat.
Variable sl : Q -> option pyexc.
Variable ep : Endpoint.

Lemma step_consistent (l : label) (s s' : system) :
  consistent s -> step wh pf sl ep l s = Some s' -> consistent s'.
Proof.
  intros Hcons Hstep.
  pose proof (join_blocked s Hcons) as Hjoin.
  destruct Hcons as (Hf & Hc & Hs).
  destruct s as [[its u] m w n eff obs inv].
  unfold consistent, sentinel_ok in *. simpl in *.
  destruct l; simpl in Hstep.
  - (* Created *)
    destruct m; try discriminate; injection Hstep as <-; simpl;
      unfold on_created; rewrite file_paths_app; simpl;
      destruct (is_directory ev); simpl;
      rewrite ?app_nil_r, ?pending_app, ?length_app; simpl;
      (repeat split; [ rewrite ?Hf, <- ?app_assoc; reflexivity | lia
                     | rewrite ?in_app_iff; simpl; intuition discriminate
                     | tauto ]).
  - (* Interrupt *)
    destruct m; try discriminate; injection Hstep as <-; simpl; tauto.
  - (* ObserverJoined *)
    destruct m; try discriminate; injection Hstep as <-; simpl; tauto.
  - (* PutSentinel *)
    destruct m; try discriminate; injection Hstep as <-; simpl.
    rewrite pending_app, length_app; simpl. rewrite app_nil_r.
    repeat split; [assumption | lia |].
    left. exists its. tauto.
  - (* QueueJoined *)
    destruct m; try discriminate.
    rewrite (Hjoin eq_refl) in Hstep. discriminate.
  - (* WorkerGet *)
    destruct w; try discriminate.
    destruct its as [|[path|] rest]; try discriminate; unfold get in Hstep;
      simpl in Hstep; injection Hstep as <-; simpl in *.
    + repeat split.
      * now rewrite <- app_assoc.
      * lia.
      * destruct m; try tauto; try (split; [tauto | discriminate]).
        -- destruct Hs as [(front & Hi & Hn & _) | [Hi _]]; [|discriminate].
           left. destruct front as [|x front]; [discriminate|].
           injection Hi as <- ->. exists front.
           repeat split; [|discriminate].
           intros Hin. apply Hn. now right.
    + repeat split.
      * assumption.
      * lia.
      * destruct m; try tauto;
          try (exfalso; apply (proj1 Hs); now left).
        -- destruct Hs as [(front & Hi & Hn & _) | [Hi _]]; [|discriminate].
           right. destruct front as [|x front].
           ++ injection Hi as <-. tauto.
           ++ injection Hi as <- _. exfalso. apply Hn. now left.
  - (* WorkerSend *)
    destruct w as [|path| |e]; try discriminate.
    destruct (outcome (send_discord_message wh pf sl fuel ep n path));
      try discriminate.
    + (* returned: task_done *)
      unfold task_done in Hstep. simpl in Hstep, Hc.
      destruct u as [|u]; [lia|].
      injection Hstep as <-. simpl.
      repeat split; [assumption | lia |].
      destruct m; try tauto; try (split; [tauto | discriminate]).
      destruct Hs as [(front & Hi & Hn & _) | [_ Hw]]; [|discriminate].
      left. exists front. repeat split; try assumption. discriminate.
    + (* raised *)
      injection Hstep as <-. simpl.
      repeat split; [assumption | assumption |].
      destruct m; try tauto; try (split; [tauto | discriminate]).
      destruct Hs as [(front & Hi & Hn & _) | [_ Hw]]; [|discriminate].
      left. exists front. repeat split; try assumption. discriminate.
    + (* still running *)
      injection Hstep as <-. simpl.
      repeat split; [assumption | assumption |].
      destruct m; try tauto; try (split; [tauto | discriminate]).
Qed.

Lemma exec_consistent (sched : list label) (s : system) :
  consistent s -> consistent (exec wh pf sl ep sched s).
Proof.
  revert s. induction sched as [|l rest IH]; intros s H; simpl; [assumption|].
  destruct (step wh pf sl ep l s) as [s'|] eqn:Hstep.
  - apply IH. now apply (step_consistent l s s').
  - now apply IH.
Qed.

End ProcessFacts.

Lemma enqueue_all_queue (evs : list FileSystemEvent) (q : Queue) :
  enqueue_all evs q
  = mkQueue (items q ++ map Some (file_paths evs))
            (unfinished_tasks q + length (file_paths evs)).
Proof.
  revert q. induction evs as [|ev evs IH]; intros q; simpl.
  - rewrite app_nil_r, Nat.add_0_r. now destruct q.
  - unfold enqueue_all in *. simpl. rewrite IH. unfold on_created, put.
    destruct (is_directory ev); simpl; [reflexivity|].
    rewrite <- app_assoc. simpl. f_equal. lia.
Qed.

Section Schedules.

Variable wh : option string.
Variable pf : string -> option pyfloat.
Variable sl : Q -> option pyexc.
Variable ep : Endpoint.





End Schedules.

(** What the escaping exception of [time.sleep] does to the process: the
    worker thread ends during the first delivery and the second file stays
    queued. *)
Example worker_dies_on_sleep_error :
  let s := exec None decimal_float refuse_long
             (always (PostReturns (mkResponse 429 (Some "-1") "")))
             [Created (mkEvent false "/data/a.txt");
              Created (mkEvent false "/data/b.txt");
              WorkerGet; WorkerSend 1; WorkerGet]
             (started []) in
  worker_at s = WDied negative_error
  /\ invoked s = ["/data/a.txt"]
  /\ queue s = mkQueue [Some "/data/b.txt"] 2.
Proof. repeat split. Qed.

(** The sentinel is put once, after [observer.join()] has returned: before
    that the queue holds no sentinel and the worker has not left its loop
    through the [break] of line 134 (an exception may have ended it). *)
Lemma sentinel_after_observer (wh : option string)
    (pf : string -> option pyfloat) (sl : Q -> option pyexc)
    (ep : Endpoint) (evs0 : list event)
    (sched : list label) :
  let s := exec wh pf sl ep sched (started evs0) in
  main_at s <> MWaitingQueue ->
  ~ In None (items (queue s)) /\ worker_at s <> WExited.
Proof.
  intros s Hm.
  destruct (exec_consistent wh pf sl ep sched (started evs0)
              (started_consistent evs0)) as (_ & _ & Hs).
  fold s in Hs. unfold sentinel_ok in Hs.
  destruct (main_at s); tauto.
Qed.

(** C2.  The claim: after the stop signal, [main] stops and joins the
    observer, puts the sentinel, waits for the worker to finish, and the
    process ends; the sequence always completes once the worker has taken the
    sentinel.  The code waits in [event_queue.join()], which returns when
    every item put has been marked by [task_done]; the worker leaves its loop
    on the sentinel without marking it.  So under every schedule [main]
    never returns: while it waits, the count of unfinished tasks is at least
    one, and once the worker has left, the queue is empty with a count of
    exactly one.  The run of an idle watcher that is interrupted ends there. *)
Theorem shutdown_never_completes (wh : option string)
    (pf : string -> option pyfloat) (sl : Q -> option pyexc)
    (ep : Endpoint) (evs0 : list event) :
  (forall sched,
     let s := exec wh pf sl ep sched (started evs0) in
     main_at s <> MReturned
     /\ (main_at s = MWaitingQueue -> join_returns (queue s) = false)
     /\ (worker_at s = WExited ->
         main_at s = MWaitingQueue /\ queue s = mkQueue [] 1))
  /\ exec wh pf sl ep
       [Interrupt; ObserverJoined; PutSentinel; WorkerGet; QueueJoined]
       (started evs0)
     = mkSystem (mkQueue [] 1) MWaitingQueue WExited 0
         (evs0 ++ [Log INFO MsgShutdown; ObserverStop]) [] [].
Proof.
  split; [|reflexivity].
  intros sched s.
  pose proof (exec_consistent wh pf sl ep sched (started evs0)
                (started_consistent evs0)) as Hcons.
  fold s in Hcons.
  pose proof (join_blocked s Hcons) as Hjoin.
  destruct Hcons as (_ & Hc & Hs). unfold sentinel_ok in Hs.
  split; [|split].
  - intros Hm. rewrite Hm in Hs. exact Hs.
  - exact Hjoin.
  - intros Hw. rewrite Hw in Hc. simpl in Hc.
    assert (Hm : main_at s = MWaitingQueue) by (destruct (main_at s); tauto).
    split; [assumption|].
    rewrite Hm in Hs.
    destruct Hs as [(front & _ & _ & Hne) | [Hi _]]; [tauto|].
    rewrite Hi in Hc. simpl in Hc.
    destruct (queue s) as [its u]. simpl in *. now subst.
Qed.

Lemma shutdown_never_completes_witness :
  worker_at (exec None decimal_float refuse_long
            (always (PostReturns (mkResponse 204 None "")))
            [Created (mkEvent false "/data/a.txt"); Interrupt; WorkerGet;
             ObserverJoined; WorkerSend 1; PutSentinel; WorkerGet;
             QueueJoined]
            (started [])) = WExited
  /\ queue (exec None decimal_float refuse_long
              (always (PostReturns (mkResponse 204 None "")))
              [Created (mkEvent false "/data/a.txt"); Interrupt; WorkerGet;
               ObserverJoined; WorkerSend 1; PutSentinel; WorkerGet;
               QueueJoined]
              (started [])) = mkQueue [] 1.
Proof.
  split; [reflexivity|].
  apply (proj2 (proj2 (proj1 (shutdown_never_completes None decimal_float refuse_long
                                (always (PostReturns (mkResponse 204 None "")))
                                [])
                         [Created (mkEvent false "/data/a.txt"); Interrupt;
                          WorkerGet; ObserverJoined; WorkerSend 1;
                          PutSentinel; WorkerGet; QueueJoined]))).
  reflexivity.
Defined.

(** * Further properties *)

(** ** The URL and the display name *)

Lemma encode_spaces_app (a b : string) :
  encode_spaces (a ++ b) = encode_spaces a ++ encode_spaces b.
Proof.
  induction a as [|c a IH]; simpl; [reflexivity|].
  destruct (Ascii.eqb c " "); simpl; now rewrite IH.
Qed.


Lemma url_shape (path : string) :
  url path = EXTERNAL_BASE ++ encode_spaces (PyStr.replace "/data" "" path).
Proof.
  unfold url. rewrite replace_space_encode, encode_spaces_app. reflexivity.
Qed.


(** The URL always starts with the external base, and a path that holds no
    [/data] (a watch directory other than the default) is appended to the
    base whole: nothing of it is stripped, only its spaces are encoded. *)
Theorem url_keeps_foreign_path (path : string) :
  PyStr.startswith EXTERNAL_BASE (url path) = true
  /\ (PyStr.contains "/data" path = false ->
      url path = EXTERNAL_BASE ++ encode_spaces path).
Proof.
  rewrite url_shape. split; [apply startswith_app|].
  intros H. unfold PyStr.replace. now rewrite replace_scan_absent.
Qed.

Lemma url_keeps_foreign_path_witness :
  url "/srv/watch/my file.txt"
  = EXTERNAL_BASE ++ "/srv/watch/my%20file.txt".
Proof.
  apply (proj2 (url_keeps_foreign_path "/srv/watch/my file.txt")).
  reflexivity.
Defined.

Lemma contains_slash_app (a b : string) :
  PyStr.contains "/" (a ++ b) = PyStr.contains "/" a || PyStr.contains "/" b.
Proof.
  induction a as [|c a IH].
  - simpl. now destruct b.
  - change (String c a ++ b) with (String c (a ++ b)).
    cbn [PyStr.contains PyStr.startswith].
    destruct (Ascii.eqb "/" c); simpl; [reflexivity|].
    destruct (a ++ b) eqn:Hab, a; simpl in *; try exact IH.
Qed.

Lemma basename_from_no_slash (cand p : string) :
  PyStr.contains "/" p = false -> PyStr.basename_from cand p = cand.
Proof.
  revert cand. induction p as [|c p IH]; intros cand H; [reflexivity|].
  cbn [PyStr.contains PyStr.startswith] in H.
  apply orb_false_iff in H as [Hc Hp]. rewrite andb_true_r in Hc.
  cbn [PyStr.basename_from]. rewrite Ascii.eqb_sym, Hc.
  apply IH. destruct p; exact Hp.
Qed.

Lemma basename_from_split (cand pre name : string) :
  PyStr.contains "/" name = false ->
  PyStr.basename_from cand (pre ++ String "/" name) = name.
Proof.
  intros H. revert cand. induction pre as [|c pre IH]; intros cand.
  - simpl. now apply basename_from_no_slash.
  - change (String c pre ++ String "/" name)
      with (String c (pre ++ String "/" name)).
    cbn [PyStr.basename_from]. destruct (Ascii.eqb c "/"); apply IH.
Qed.

Lemma basename_from_clean (x p : string) :
  PyStr.contains "/" x = false ->
  PyStr.contains "/" (PyStr.basename_from (x ++ p) p) = false.
Proof.
  revert x. induction p as [|c p IH]; intros x Hx.
  - simpl. now rewrite contains_slash_app, Hx.
  - cbn [PyStr.basename_from]. destruct (Ascii.eqb c "/") eqn:Hc.
    + apply (IH EmptyString). reflexivity.
    + replace (x ++ String c p) with ((x ++ String c EmptyString) ++ p).
      * apply IH. rewrite contains_slash_app, Hx.
        cbn [PyStr.contains PyStr.startswith orb].
        rewrite Ascii.eqb_sym, Hc. reflexivity.
      * clear. induction x as [|a x IHx]; simpl; [reflexivity|].
        now rewrite IHx.
Qed.

(** The display name used in the log lines is the text after the last slash
    of the path: it never holds a slash, it is the whole path when the path
    has none, and for [dir/name] with a slash-free [name] it is [name]. *)
Theorem file_name_is_last_component (path : string) :
  PyStr.contains "/" (file_name path) = false
  /\ (PyStr.contains "/" path = false -> file_name path = path)
  /\ (forall dir name,
        path = dir ++ String "/" name ->
        PyStr.contains "/" name = false ->
        file_name path = name).
Proof.
  unfold file_name, PyStr.basename. repeat split.
  - apply (basename_from_clean EmptyString path). reflexivity.
  - intros H. now apply basename_from_no_slash.
  - intros dir name -> H. now apply basename_from_split.
Qed.

Lemma file_name_is_last_component_witness :
  file_name "/data/sub dir/report.txt" = "report.txt"
  /\ file_name "report.txt" = "report.txt".
Proof.
  split.
  - apply (proj2 (proj2 (file_name_is_last_component
                           "/data/sub dir/report.txt"))
             "/data/sub dir" "report.txt"); reflexivity.
  - apply (proj1 (proj2 (file_name_is_last_component "report.txt"))).
    reflexivity.
Defined.

(** ** The shape of a delivery *)

Lemma two_seconds_accepted (sl : Q -> option pyexc) :
  sleep_float sl (FFin 2) = None.
Proof. reflexivity. Qed.

Section LoopShape.

Variable wh : option string.
Variable pf : string -> option pyfloat.
Variable sl : Q -> option pyexc.
Variable ep : Endpoint.
Variables name content : string.

Lemma retryable_round (k : nat) :
  retryable pf sl (ep k) = true ->
  forall fuel, exists round,
    send_loop wh pf sl (S fuel) ep k name content
    = before round (send_loop wh pf sl fuel ep (S k) name content)
    /\ length (posts round) = 1 /\ length (sleeps round) = 1.
Proof.
  intros H fuel. cbn [send_loop]. unfold retryable in H.
  destruct (ep k) as [exc|r].
  - eexists. split; [reflexivity|]. split; reflexivity.
  - apply andb_true_iff in H as [H Hs].
    apply andb_true_iff in H as [Hn Hc].
    apply negb_true_iff in Hn. rewrite Hn, Hc.
    destruct (sleep_float sl (wait_seconds pf r)); [discriminate|].
    eexists. split; [reflexivity|]. split; reflexivity.
Qed.

Lemma final_round (k : nat) :
  final (ep k) = true ->
  forall fuel, exists round,
    send_loop wh pf sl (S fuel) ep k name content = mkRun round (S k) Returned
    /\ length (posts round) = 1 /\ sleeps round = [].
Proof.
  intros H fuel. cbn [send_loop]. unfold final in H.
  destruct (ep k) as [exc|r]; [discriminate|].
  destruct (is_success (status_code r)).
  - eexists. split; [reflexivity|]. split; reflexivity.
  - simpl in H. apply negb_true_iff in H. rewrite H.
    eexists. split; [reflexivity|]. split; reflexivity.
Qed.

Lemma posts_before (round : list event) (r : run) :
  posts (trace (before round r)) = (posts round ++ posts (trace r))%list.
Proof. unfold posts, before. simpl. apply filter_app. Qed.

Lemma sleeps_before (round : list event) (r : run) :
  sleeps (trace (before round r)) = (sleeps round ++ sleeps (trace r))%list.
Proof. unfold sleeps, before. simpl. apply filter_app. Qed.

Lemma loop_attempts (fuel k : nat) :
  let r := send_loop wh pf sl fuel ep k name content in
  length (posts (trace r)) = next_attempt r - k
  /\ k <= next_attempt r /\ next_attempt r <= k + fuel.
Proof.
  revert k. induction fuel as [|fuel IH]; intros k; cbn [send_loop].
  - cbn [trace next_attempt posts filter length]. lia.
  - specialize (IH (S k)). cbv zeta in IH.
    destruct (ep k) as [exc|r].
    + rewrite posts_before.
      cbn [posts filter is_post app length before next_attempt]. lia.
    + destruct (is_success (status_code r));
        [cbn [trace next_attempt posts filter is_post length]; lia|].
      destruct (Z.eqb (status_code r) 429);
        [|cbn [trace next_attempt posts filter is_post length]; lia].
      destruct (sleep_float sl (wait_seconds pf r));
        [cbn [trace next_attempt posts filter is_post length]; lia|].
      rewrite posts_before.
      cbn [posts filter is_post app length before next_attempt]. lia.
Qed.

Lemma loop_sleeps (fuel k : nat) :
  let r := send_loop wh pf sl fuel ep k name content in
  (outcome r = Running ->
   length (sleeps (trace r)) = length (posts (trace r)))
  /\ (outcome r <> Running ->
      S (length (sleeps (trace r))) = length (posts (trace r))).
Proof.
  revert k. induction fuel as [|fuel IH]; intros k; cbn [send_loop].
  - simpl. split; [reflexivity | congruence].
  - specialize (IH (S k)). cbv zeta in IH.
    destruct (ep k) as [exc|r].
    + rewrite posts_before, sleeps_before. simpl.
      destruct IH as [IH1 IH2]. split; intros H; f_equal; auto.
    + destruct (is_success (status_code r));
        [simpl; split; [discriminate | reflexivity]|].
      destruct (Z.eqb (status_code r) 429);
        [|simpl; split; [discriminate | reflexivity]].
      destruct (sleep_float sl (wait_seconds pf r));
        [simpl; split; [discriminate | reflexivity]|].
      rewrite posts_before, sleeps_before. simpl.
      destruct IH as [IH1 IH2]. split; intros H; f_equal; auto.
Qed.

Lemma loop_returned (fuel k : nat) :
  outcome (send_loop wh pf sl fuel ep k name content) = Returned ->
  let last := next_attempt (send_loop wh pf sl fuel ep k name content) - 1 in
  k <= last
  /\ final (ep last) = true
  /\ (forall i, k <= i -> i < last -> retryable pf sl (ep i) = true).
Proof.
  revert k. induction fuel as [|fuel IH]; intros k; cbn [send_loop].
  - discriminate.
  - specialize (IH (S k)). cbv zeta in IH.
    pose proof (loop_attempts fuel (S k)) as Hatt. cbv zeta in Hatt.
    destruct (ep k) as [exc|r] eqn:Hk.
    + simpl. intros H. destruct (IH H) as (Hle & Hfin & Hre).
      split; [lia|]. split; [assumption|].
      intros i Hi Hlt. destruct (Nat.eq_dec i k) as [->|Hne].
      * now rewrite Hk.
      * apply Hre; lia.
    + destruct (is_success (status_code r)) eqn:Hs.
      { simpl. intros _. rewrite Nat.sub_0_r. split; [lia|].
        split; [|intros; lia]. rewrite Hk. simpl. now rewrite Hs. }
      destruct (Z.eqb (status_code r) 429) eqn:Hc.
      * destruct (sleep_float sl (wait_seconds pf r)) eqn:Hsl; [discriminate|].
        simpl. intros H. destruct (IH H) as (Hle & Hfin & Hre).
        split; [lia|]. split; [assumption|].
        intros i Hi Hlt. destruct (Nat.eq_dec i k) as [->|Hne].
        -- rewrite Hk. simpl. now rewrite Hs, Hc, Hsl.
        -- apply Hre; lia.
      * simpl. intros _. rewrite Nat.sub_0_r. split; [lia|].
        split; [|intros; lia]. rewrite Hk. simpl. now rewrite Hs, Hc.
Qed.

Lemma loop_first_final (n : nat) :
  forall k fuel,
  (forall i, i < n -> retryable pf sl (ep (k + i)) = true) ->
  final (ep (k + n)) = true ->
  let r := send_loop wh pf sl (S n + fuel) ep k name content in
  outcome r = Returned
  /\ next_attempt r = S (k + n)
  /\ length (posts (trace r)) = S n
  /\ length (sleeps (trace r)) = n.
Proof.
  induction n as [|n IH]; intros k fuel Hre Hfin.
  - rewrite Nat.add_0_r in Hfin.
    destruct (final_round k Hfin fuel) as (round & Heq & Hp & Hs).
    cbv zeta. change (1 + fuel) with (S fuel). rewrite Heq.
    simpl. rewrite Hp, Hs, Nat.add_0_r. auto.
  - assert (Hk : retryable pf sl (ep k) = true).
    { rewrite <- (Nat.add_0_r k). apply Hre. lia. }
    destruct (retryable_round k Hk (S n + fuel)) as (round & Heq & Hp & Hs).
    cbv zeta. change (S (S n) + fuel) with (S (S n + fuel)). rewrite Heq.
    destruct (IH (S k) fuel) as (Ho & Hn & Hps & Hsl).
    + intros i Hi. rewrite Nat.add_succ_comm. apply Hre. lia.
    + now rewrite Nat.add_succ_comm.
    + split; [exact Ho|]. split.
      * cbn [before next_attempt]. rewrite Hn. lia.
      * rewrite posts_before, sleeps_before, !length_app, Hp, Hs, Hps, Hsl.
        split; reflexivity.
Qed.

Lemma loop_default_wait (fuel k : nat) :
  (forall i r, ep i = PostReturns r -> status_code r = 429%Z ->
               retry_after r = None
               \/ exists s, retry_after r = Some s /\ pf s = None) ->
  let r := send_loop wh pf sl fuel ep k name content in
  (forall e, outcome r <> Propagated e)
  /\ (forall d, In (Sleep d) (trace r) ->
                d = SecsInt 5 \/ d = SecsFloat (FFin 2)).
Proof.
  intros Hhdr. revert k.
  induction fuel as [|fuel IH]; intros k; cbn [send_loop].
  - simpl. split; [discriminate | tauto].
  - specialize (IH (S k)). cbv zeta in IH. destruct IH as [IHo IHs].
    destruct (ep k) as [exc|r] eqn:Hk.
    + simpl. split; [assumption|].
      intros d [H|[H|[H|H]]]; try discriminate; [|now apply IHs].
      injection H as <-. now left.
    + destruct (is_success (status_code r)).
      { simpl. split; [discriminate|].
        intros d [H|[H|[]]]; discriminate. }
      destruct (Z.eqb (status_code r) 429) eqn:Hc.
      * apply Z.eqb_eq in Hc.
        assert (Hw : wait_seconds pf r = FFin 2).
        { unfold wait_seconds.
          destruct (Hhdr k r Hk Hc) as [-> | (s & -> & ->)]; reflexivity. }
        rewrite Hw, two_seconds_accepted. simpl. split; [assumption|].
        intros d [H|[H|[H|H]]]; try discriminate; [|now apply IHs].
        injection H as <-. now right.
      * simpl. split; [discriminate|].
        intros d [H|[H|[]]]; discriminate.
Qed.

End LoopShape.

Lemma loop_propagated (wh : option string)
    (pf : string -> option pyfloat) (sl : Q -> option pyexc)
    (ep : Endpoint) (name content : string) (fuel k : nat) (e : pyexc) :
  outcome (send_loop wh pf sl fuel ep k name content) = Propagated e ->
  let last := next_attempt (send_loop wh pf sl fuel ep k name content) - 1 in
  k <= last
  /\ (exists r, ep last = PostReturns r /\ status_code r = 429%Z
                /\ sleep_float sl (wait_seconds pf r) = Some e)
  /\ (forall i, k <= i -> i < last -> retryable pf sl (ep i) = true).
Proof.
  revert k. induction fuel as [|fuel IH]; intros k; cbn [send_loop].
  - discriminate.
  - specialize (IH (S k)). cbv zeta in IH.
    destruct (ep k) as [exc|r] eqn:Hk.
    + simpl. intros H. destruct (IH H) as (Hle & Hlast & Hre).
      split; [lia|]. split; [assumption|].
      intros i Hi Hlt. destruct (Nat.eq_dec i k) as [->|Hne].
      * now rewrite Hk.
      * apply Hre; lia.
    + destruct (is_success (status_code r)) eqn:Hs; [discriminate|].
      destruct (Z.eqb (status_code r) 429) eqn:Hc; [|discriminate].
      destruct (sleep_float sl (wait_seconds pf r)) as [e'|] eqn:Hsl.
      * simpl. intros [= <-]. rewrite Nat.sub_0_r. split; [lia|].
        split; [|intros; lia].
        exists r. apply Z.eqb_eq in Hc. auto.
      * simpl. intros H. destruct (IH H) as (Hle & Hlast & Hre).
        split; [lia|]. split; [assumption|].
        intros i Hi Hlt. destruct (Nat.eq_dec i k) as [->|Hne].
        -- rewrite Hk. simpl. now rewrite Hs, Hc, Hsl.
        -- apply Hre; lia.
Qed.

Lemma post_sleep_order_app (a b : list event) :
  post_sleep_order (a ++ b)
  = (post_sleep_order a ++ post_sleep_order b)%list.
Proof. unfold post_sleep_order. now rewrite filter_app, map_app. Qed.

Lemma loop_order (wh : option string) (pf : string -> option pyfloat)
    (sl : Q -> option pyexc) (ep : Endpoint) (name content : string)
    (fuel k : nat) :
  outcome (send_loop wh pf sl fuel ep k name content) <> Running ->
  post_sleep_order (trace (send_loop wh pf sl fuel ep k name content))
  = alternating
      (length (sleeps (trace (send_loop wh pf sl fuel ep k name content)))).
Proof.
  revert k. induction fuel as [|fuel IH]; intros k; cbn [send_loop].
  - simpl. congruence.
  - specialize (IH (S k)).
    destruct (ep k) as [exc|r].
    + intros H. rewrite sleeps_before. cbn [before trace].
      rewrite post_sleep_order_app, length_app.
      cbn [post_sleep_order sleeps filter map is_post is_sleep orb app
           length Nat.add alternating].
      f_equal. f_equal. exact (IH H).
    + destruct (is_success (status_code r)); [reflexivity|].
      destruct (Z.eqb (status_code r) 429); [|reflexivity].
      destruct (sleep_float sl (wait_seconds pf r)); [reflexivity|].
      intros H. rewrite sleeps_before. cbn [before trace].
      rewrite post_sleep_order_app, length_app.
      cbn [post_sleep_order sleeps filter map is_post is_sleep orb app
           length Nat.add alternating].
      f_equal. f_equal. exact (IH H).
Qed.

(** In a delivery that has ended, POSTs and sleeps alternate, starting and
    ending with a POST: the loop sleeps exactly once between two consecutive
    POSTs and never after the last one.  So it made one more POST than it
    slept, and as many POSTs as calls of [requests.post] it used up. *)
Theorem one_sleep_between_posts (wh : option string)
    (pf : string -> option pyfloat) (sl : Q -> option pyexc) (fuel : nat)
    (ep : Endpoint) (k : nat) (path : string) :
  outcome (send_discord_message wh pf sl fuel ep k path) <> Running ->
  post_sleep_order (trace (send_discord_message wh pf sl fuel ep k path))
  = alternating
      (length (sleeps (trace (send_discord_message wh pf sl fuel ep k
                                path))))
  /\ length (posts (trace (send_discord_message wh pf sl fuel ep k path)))
     = S (length (sleeps (trace (send_discord_message wh pf sl fuel ep k
                                   path))))
  /\ length (posts (trace (send_discord_message wh pf sl fuel ep k path)))
     = next_attempt (send_discord_message wh pf sl fuel ep k path) - k.
Proof.
  intros H. unfold send_discord_message in *. split; [|split].
  - now apply loop_order.
  - symmetry. now apply loop_sleeps.
  - apply loop_attempts.
Qed.

Lemma one_sleep_between_posts_witness :
  post_sleep_order
    (trace (send_discord_message None decimal_float refuse_long 9
              (scripted [PostRaises (PyExc "Timeout" "timed out");
                         PostReturns (mkResponse 429 None "");
                         PostReturns (mkResponse 429 (Some "0.25") "")]
                        (PostReturns (mkResponse 404 None "Unknown Webhook")))
              0 "/data/a.txt"))
  = [true; false; true; false; true; false; true].
Proof.
  apply (one_sleep_between_posts None decimal_float refuse_long 9
           (scripted [PostRaises (PyExc "Timeout" "timed out");
                      PostReturns (mkResponse 429 None "");
                      PostReturns (mkResponse 429 (Some "0.25") "")]
                     (PostReturns (mkResponse 404 None "Unknown Webhook")))
           0 "/data/a.txt").
  discriminate.
Defined.

(** A delivery returns only on an answer that is not a 429: the last attempt
    got a response with status 200, 204 or anything but 429, and every
    attempt before it raised or was a 429 with an accepted wait. *)
Theorem returns_only_on_final_answer (wh : option string)
    (pf : string -> option pyfloat) (sl : Q -> option pyexc)
    (fuel : nat) (ep : Endpoint) (k : nat)
    (path : string) :
  outcome (send_discord_message wh pf sl fuel ep k path) = Returned ->
  let last := next_attempt (send_discord_message wh pf sl fuel ep k path) - 1 in
  k <= last
  /\ final (ep last) = true
  /\ (forall i, k <= i -> i < last -> retryable pf sl (ep i) = true).
Proof. unfold send_discord_message. apply loop_returned. Qed.

Lemma returns_only_on_final_answer_witness :
  final (scripted [PostRaises (PyExc "Timeout" "timed out");
                   PostReturns (mkResponse 429 None "")]
                  (PostReturns (mkResponse 204 None "")) 2) = true.
Proof.
  apply (returns_only_on_final_answer None decimal_float refuse_long 5
           (scripted [PostRaises (PyExc "Timeout" "timed out");
                      PostReturns (mkResponse 429 None "")]
                     (PostReturns (mkResponse 204 None "")))
           0 "/data/a.txt").
  reflexivity.
Defined.

(** A delivery ends at the first answer that is not retried: after [n]
    attempts that raise or are rate limited with an accepted wait, in any
    mixture, an answer with another status makes the call return, after
    [n + 1] POSTs and [n] sleeps in all. *)
Theorem returns_at_first_final_answer (wh : option string)
    (pf : string -> option pyfloat) (sl : Q -> option pyexc)
    (n fuel : nat) (ep : Endpoint) (k : nat)
    (path : string) :
  (forall i, i < n -> retryable pf sl (ep (k + i)) = true) ->
  final (ep (k + n)) = true ->
  let r := send_discord_message wh pf sl (S n + fuel) ep k path in
  outcome r = Returned
  /\ next_attempt r = S (k + n)
  /\ length (posts (trace r)) = S n
  /\ length (sleeps (trace r)) = n.
Proof. unfold send_discord_message. apply loop_first_final. Qed.

Lemma returns_at_first_final_answer_witness :
  length (posts (trace (send_discord_message None decimal_float refuse_long 4
            (scripted [PostReturns (mkResponse 429 (Some "0.25") "");
                       PostRaises (PyExc "ConnectionError" "reset");
                       PostReturns (mkResponse 429 None "")]
                      (PostReturns (mkResponse 200 None "")))
            0 "/data/a.txt"))) = 4.
Proof.
  apply (returns_at_first_final_answer None decimal_float refuse_long 3 0
           (scripted [PostReturns (mkResponse 429 (Some "0.25") "");
                      PostRaises (PyExc "ConnectionError" "reset");
                      PostReturns (mkResponse 429 None "")]
                     (PostReturns (mkResponse 200 None "")))
           0 "/data/a.txt").
  - intros [|[|[|i]]] Hi; try reflexivity. lia.
  - reflexivity.
Defined.

(** An exception leaves a delivery only at a 429 whose wait [time.sleep]
    refuses: the attempt that got that 429 is the last one made, the
    exception is the one [time.sleep] raised for its wait, and every attempt
    before it was retried. *)
Theorem exception_only_from_refused_wait (wh : option string)
    (pf : string -> option pyfloat) (sl : Q -> option pyexc) (fuel : nat)
    (ep : Endpoint) (k : nat) (path : string) (e : pyexc) :
  outcome (send_discord_message wh pf sl fuel ep k path) = Propagated e ->
  let last :=
    next_attempt (send_discord_message wh pf sl fuel ep k path) - 1 in
  k <= last
  /\ (exists r, ep last = PostReturns r /\ status_code r = 429%Z
                /\ sleep_float sl (wait_seconds pf r) = Some e)
  /\ (forall i, k <= i -> i < last -> retryable pf sl (ep i) = true).
Proof. unfold send_discord_message. apply loop_propagated. Qed.

Lemma exception_only_from_refused_wait_witness :
  exists r,
    scripted [PostRaises (PyExc "Timeout" "timed out")]
             (PostReturns (mkResponse 429 (Some "-0.5") "")) 1
    = PostReturns r
    /\ status_code r = 429%Z
    /\ sleep_float refuse_long (wait_seconds decimal_float r)
       = Some negative_error.
Proof.
  apply (exception_only_from_refused_wait None decimal_float refuse_long 3
           (scripted [PostRaises (PyExc "Timeout" "timed out")]
                     (PostReturns (mkResponse 429 (Some "-0.5") "")))
           0 "/data/a.txt" negative_error).
  reflexivity.
Defined.

(** Where no 429 answer carries a [Retry-After] that parses, no exception
    leaves the delivery and every sleep is either the fixed 5 after a
    transport error or the default 2.0 after a 429. *)
Theorem unparsed_header_waits_default (wh : option string)
    (pf : string -> option pyfloat) (sl : Q -> option pyexc)
    (fuel : nat) (ep : Endpoint) (k : nat)
    (path : string) :
  (forall i r, ep i = PostReturns r -> status_code r = 429%Z ->
               retry_after r = None
               \/ exists s, retry_after r = Some s /\ pf s = None) ->
  let r := send_discord_message wh pf sl fuel ep k path in
  (forall e, outcome r <> Propagated e)
  /\ (forall d, In (Sleep d) (trace r) ->
                d = SecsInt 5 \/ d = SecsFloat (FFin 2)).
Proof. unfold send_discord_message. apply loop_default_wait. Qed.

Lemma unparsed_header_waits_default_witness :
  SecsFloat (FFin 2) = SecsInt 5 \/ SecsFloat (FFin 2) = SecsFloat (FFin 2).
Proof.
  refine (proj2 (unparsed_header_waits_default None decimal_float refuse_long 6
                   (scripted [PostReturns (mkResponse 429 (Some "soon") "");
                              PostRaises (PyExc "Timeout" "timed out");
                              PostReturns (mkResponse 429 None "")]
                             (PostReturns (mkResponse 204 (Some "-1") "")))
                   0 "/data/a.txt" _)
            (SecsFloat (FFin 2)) _).
  - intros i r Hi Hc.
    destruct i as [|[|[|[|i]]]]; simpl in Hi; try discriminate Hi;
      injection Hi as <-; try discriminate Hc.
    + right. exists "soon". split; reflexivity.
    + now left.
  - simpl. auto 10.
Defined.

(** ** Start-up and the handler *)

(** Validation passes exactly when the webhook URL is a non-empty string and
    the watch directory is a directory, and then logs nothing.  The webhook
    is tested first: when it is missing, the directory is not looked at and
    the one message logged is the webhook's, also when the directory is
    wrong too. *)
Theorem validation_order (wh : option string) (monitor_dir : string)
    (isdir : string -> bool) :
  (snd (validate_config wh monitor_dir isdir) = true
   <-> (exists c rest, wh = Some (String c rest))
       /\ isdir monitor_dir = true)
  /\ (snd (validate_config wh monitor_dir isdir) = true ->
      fst (validate_config wh monitor_dir isdir) = [])
  /\ (truthy wh = false ->
      validate_config wh monitor_dir isdir
      = ([Log ERROR MsgWebhookUnset], false)).
Proof.
  unfold validate_config. split; [split|split].
  - intros H. destruct wh as [[|c rest]|]; simpl in H; try discriminate H.
    split; [now exists c, rest|].
    now destruct (isdir monitor_dir).
  - intros [(c & rest & ->) ->]. reflexivity.
  - destruct (truthy wh); simpl; [|discriminate].
    now destruct (isdir monitor_dir).
  - intros ->. reflexivity.
Qed.

Lemma validation_order_witness :
  validate_config (Some "") "/nowhere" (fun _ => false)
  = ([Log ERROR MsgWebhookUnset], false)
  /\ snd (validate_config (Some "https://discord.test/hook") "/data"
            (fun d => String.eqb d "/data")) = true.
Proof.
  split.
  - apply (proj2 (proj2 (validation_order (Some "") "/nowhere"
                           (fun _ => false)))).
    reflexivity.
  - apply (proj2 (proj1 (validation_order (Some "https://discord.test/hook")
                           "/data" (fun d => String.eqb d "/data")))).
    split; [now exists "h"%char, "ttps://discord.test/hook" | reflexivity].
Defined.

(** [main] gets both threads running exactly when validation passes; it then
    schedules the observer on the watch directory without recursion, starts
    it, logs, and starts the worker, in that order, on an empty queue. *)
Theorem startup_iff_valid (wh : option string) (monitor_dir : string)
    (isdir : string -> bool) :
  (snd (main_startup wh monitor_dir isdir) <> None
   <-> snd (validate_config wh monitor_dir isdir) = true)
  /\ (forall evs s,
        main_startup wh monitor_dir isdir = (evs, Some s) ->
        evs = [ObserverSchedule monitor_dir false; ObserverStart;
               Log INFO (MsgWatching monitor_dir); ThreadStart]
        /\ s = mkSystem (mkQueue [] 0) MWatching WGet 0 evs [] []).
Proof.
  unfold main_startup, validate_config.
  destruct (truthy wh); simpl.
  - destruct (isdir monitor_dir); simpl; split.
    + split; [reflexivity | discriminate].
    + intros evs s [= <- <-]. split; reflexivity.
    + split; [congruence | discriminate].
    + discriminate.
  - split; [split; [congruence | discriminate] | discriminate].
Qed.

Lemma startup_iff_valid_witness :
  [ObserverSchedule "/data" false; ObserverStart;
   Log INFO (MsgWatching "/data"); ThreadStart]
  = [ObserverSchedule "/data" false; ObserverStart;
     Log INFO (MsgWatching "/data"); ThreadStart]
  /\ started [ObserverSchedule "/data" false; ObserverStart;
              Log INFO (MsgWatching "/data"); ThreadStart]
     = mkSystem (mkQueue [] 0) MWatching WGet 0
         [ObserverSchedule "/data" false; ObserverStart;
          Log INFO (MsgWatching "/data"); ThreadStart] [] [].
Proof.
  apply (proj2 (startup_iff_valid (Some "https://discord.test/hook") "/data"
                  (fun d => String.eqb d "/data"))
           [ObserverSchedule "/data" false; ObserverStart;
            Log INFO (MsgWatching "/data"); ThreadStart]
           (started [ObserverSchedule "/data" false; ObserverStart;
                     Log INFO (MsgWatching "/data"); ThreadStart])).
  reflexivity.
Defined.

(** What a sequence of handler calls leaves in the queue: the paths of the
    events that are not directories, behind what was queued, in the order of
    the events and with repeated paths kept; the count of unfinished tasks
    rises by their number, and the handler never queues the stop sentinel. *)
Theorem handler_keeps_order (evs : list FileSystemEvent) (q : Queue) :
  items (enqueue_all evs q) = (items q ++ map Some (file_paths evs))%list
  /\ unfinished_tasks (enqueue_all evs q)
     = unfinished_tasks q + length (file_paths evs)
  /\ pending (items (enqueue_all evs q))
     = (pending (items q) ++ file_paths evs)%list
  /\ (~ In None (items q) -> ~ In None (items (enqueue_all evs q))).
Proof.
  rewrite enqueue_all_queue. cbn [items unfinished_tasks].
  repeat split.
  - rewrite pending_app. f_equal.
    induction (file_paths evs) as [|p l IH]; simpl; now rewrite ?IH.
  - intros Hq Hin. apply in_app_or in Hin as [Hin|Hin]; [now apply Hq|].
    apply in_map_iff in Hin as (p & Hp & _). discriminate.
Qed.

Lemma handler_keeps_order_witness :
  (~ In None (items (mkQueue [Some "/data/z.txt"] 1)))
  /\ (~ In None (items (enqueue_all [mkEvent false "/data/a.txt";
                                     mkEvent true "/data/d";
                                     mkEvent false "/data/a.txt"]
                                    (mkQueue [Some "/data/z.txt"] 1)))).
Proof.
  assert (H : ~ In None (items (mkQueue [Some "/data/z.txt"] 1))).
  { simpl. intuition discriminate. }
  split; [exact H|].
  exact (proj2 (proj2 (proj2 (handler_keeps_order
                                [mkEvent false "/data/a.txt";
                                 mkEvent true "/data/d";
                                 mkEvent false "/data/a.txt"]
                                (mkQueue [Some "/data/z.txt"] 1)))) H).
Defined.

(** ** The process under every schedule *)

Lemma exec_invariant (wh : option string)
    (pf : string -> option pyfloat) (sl : Q -> option pyexc)
    (ep : Endpoint) (P : system -> Prop) :
  (forall l s s', P s -> step wh pf sl ep l s = Some s' -> P s') ->
  forall sched s, P s -> P (exec wh pf sl ep sched s).
Proof.
  intros Hstep sched. induction sched as [|l rest IH]; intros s H; simpl;
    [assumption|].
  destruct (step wh pf sl ep l s) as [s'|] eqn:Hs.
  - apply IH. now apply (Hstep l s s').
  - now apply IH.
Qed.

Lemma posts_app (a b : list event) :
  posts (a ++ b) = (posts a ++ posts b)%list.
Proof. apply filter_app. Qed.

(** Takes a step apart: one goal for each way the step can happen. *)
Ltac step_inv H :=
  unfold step, observer_dispatch, main_shutdown, worker in H;
  cbv zeta in H;
  repeat match type of H with
         | context [match ?x with _ => _ end] =>
             destruct x eqn:?; try discriminate H
         end;
  injection H as <-.

(** What a step does to the worker: nothing, or it takes an item, or its
    delivery ends. *)
Lemma step_worker (wh : option string)
    (pf : string -> option pyfloat) (sl : Q -> option pyexc)
    (ep : Endpoint) (l : label) (s s' : system) :
  step wh pf sl ep l s = Some s' ->
  (worker_at s' = worker_at s /\ invoked s' = invoked s /\ net s' = net s
   /\ posts (effects s') = posts (effects s))
  \/ (worker_at s = WGet /\ effects s' = effects s /\ net s' = net s
      /\ ((worker_at s' = WExited /\ invoked s' = invoked s)
          \/ exists p, worker_at s' = WSending p
                       /\ invoked s' = (invoked s ++ [p])%list))
  \/ (exists p fuel,
        worker_at s = WSending p /\ invoked s' = invoked s
        /\ effects s'
           = (effects s
              ++ trace (send_discord_message wh pf sl fuel ep (net s) p))%list
        /\ net s'
           = next_attempt (send_discord_message wh pf sl fuel ep (net s) p)
        /\ ((outcome (send_discord_message wh pf sl fuel ep (net s) p)
             = Returned
             /\ (worker_at s' = WGet
                 \/ (worker_at s' = WDied too_many_task_done
                     /\ task_done (queue s) = None)))
            \/ (exists e,
                  outcome (send_discord_message wh pf sl fuel ep (net s) p)
                  = Propagated e
                  /\ worker_at s' = WDied e)
            \/ (outcome (send_discord_message wh pf sl fuel ep (net s) p)
                = Running
                /\ worker_at s' = WSending p))).
Proof.
  intros H. destruct s as [q m w n eff obs inv].
  step_inv H; simpl in *; subst;
    try (left; repeat split; try reflexivity;
         rewrite posts_app, app_nil_r; reflexivity);
    try (right; left; repeat split; eauto; fail).
  - right; right. exists path, fuel. repeat split; eauto.
  - right; right. exists path, fuel. repeat split; eauto.
  - right; right. exists path, fuel. repeat split; eauto 6.
  - right; right. exists path, fuel. repeat split; eauto.
Qed.

Lemma main_startup_started (wh : option string) (monitor_dir : string)
    (isdir : string -> bool) (evs : list event) (s : system) :
  main_startup wh monitor_dir isdir = (evs, Some s) ->
  s = started evs /\ posts evs = [].
Proof.
  unfold main_startup, validate_config.
  destruct (truthy wh); simpl; [|discriminate].
  destruct (isdir monitor_dir); simpl; [|discriminate].
  intros [= <- <-]. split; reflexivity.
Qed.

Lemma ended_run_posted (wh : option string)
    (pf : string -> option pyfloat) (sl : Q -> option pyexc)
    (ep : Endpoint) (fuel k : nat) (path : string) :
  outcome (send_discord_message wh pf sl fuel ep k path) <> Running ->
  In (Post wh (payload_content path))
     (trace (send_discord_message wh pf sl fuel ep k path)).
Proof.
  intros H. unfold send_discord_message in *.
  pose proof (proj2 (loop_sleeps wh pf sl ep (file_name path)
                       (payload_content path) fuel k) H) as Hlen.
  destruct (posts (trace (send_loop wh pf sl fuel ep k (file_name path)
                            (payload_content path)))) as [|e l] eqn:Hp;
    [discriminate Hlen|].
  assert (Hin : In e (posts (trace (send_loop wh pf sl fuel ep k
                                      (file_name path)
                                      (payload_content path))))).
  { rewrite Hp. now left. }
  pose proof (send_loop_posts wh pf sl fuel ep k _ _ e Hin) as ->.
  unfold posts in Hin. now apply filter_In in Hin.
Qed.

Section Reachable.

Variable wh : option string.
Variable pf : string -> option pyfloat.
Variable sl : Q -> option pyexc.
Variable ep : Endpoint.
Variable evs0 : list event.

Lemma worker_death_cause (sched : list label) (e : pyexc) :
  worker_at (exec wh pf sl ep sched (started evs0)) = WDied e ->
  exists k r, ep k = PostReturns r /\ status_code r = 429%Z
              /\ sleep_float sl (wait_seconds pf r) = Some e.
Proof.
  revert e.
  apply (exec_invariant wh pf sl ep
           (fun s => consistent s
                     /\ forall e, worker_at s = WDied e ->
                        exists k r, ep k = PostReturns r
                                    /\ status_code r = 429%Z
                                    /\ sleep_float sl (wait_seconds pf r)
                                       = Some e)).
  - intros l s s' [Hc Hd] Hstep.
    split; [now apply (step_consistent wh pf sl ep l s s')|].
    intros e He.
    destruct (step_worker wh pf sl ep l s s' Hstep)
      as [(Hw & _) | [(_ & _ & _ & [[Hw _] | (p & Hw & _)])
                     | (p & fuel & Hw & _ & _ & _ & Hend)]].
    + apply Hd. congruence.
    + congruence.
    + congruence.
    + destruct Hend as [[_ [Hg | [_ Htd]]] | [(e' & Ho & Hw') | [_ Hr]]].
      * congruence.
      * exfalso. destruct Hc as (_ & Hcount & _).
        rewrite Hw in Hcount. simpl in Hcount.
        unfold task_done in Htd.
        destruct (unfinished_tasks (queue s)); [lia | discriminate].
      * rewrite Hw' in He. injection He as ->.
        unfold send_discord_message in Ho.
        exact (send_loop_propagated wh pf sl fuel ep (net s) _ _ e Ho).
      * congruence.
  - split; [apply started_consistent | discriminate].
Qed.

Lemma posts_trace_back (sched : list label) (e : event) :
  In e (posts (effects (exec wh pf sl ep sched (started evs0)))) ->
  In e (posts evs0)
  \/ exists p,
       In p (invoked (exec wh pf sl ep sched (started evs0)))
       /\ e = Post wh (payload_content p).
Proof.
  revert e.
  apply (exec_invariant wh pf sl ep
           (fun s => (forall p, worker_at s = WSending p -> In p (invoked s))
                     /\ forall e, In e (posts (effects s)) ->
                        In e (posts evs0)
                        \/ exists p, In p (invoked s)
                                     /\ e = Post wh (payload_content p))).
  - intros l s s' [Hw Hp] Hstep.
    destruct (step_worker wh pf sl ep l s s' Hstep)
      as [(Hw' & Hi & _ & He)
         | [(_ & He & _ & [[Hw' Hi] | (p & Hw' & Hi)])
           | (p & fuel & Hws & Hi & He & _ & Hend)]].
    + rewrite Hw', Hi, He. auto.
    + rewrite Hw', Hi, He. split; [discriminate | assumption].
    + rewrite Hw', Hi, He. split.
      * intros p' [= <-]. apply in_or_app. right. now left.
      * intros e Hin. destruct (Hp e Hin) as [H | (p' & H1 & H2)]; auto.
        right. exists p'. split; [apply in_or_app; now left | assumption].
    + rewrite Hi, He. split.
      * intros p' Hp'.
        destruct Hend as [[_ [H | [H _]]] | [(e' & _ & H) | [_ H]]];
          rewrite H in Hp'; try discriminate.
        injection Hp' as <-. now apply Hw.
      * intros e Hin. rewrite posts_app in Hin.
        apply in_app_or in Hin as [Hin | Hin]; [now apply Hp|].
        right. exists p. split; [now apply Hw|].
        unfold send_discord_message in Hin.
        exact (send_loop_posts wh pf sl fuel ep (net s) _ _ e Hin).
  - simpl. split; [discriminate | auto].
Qed.

Lemma finished_posted (sched : list label) :
  exists done,
    invoked (exec wh pf sl ep sched (started evs0))
    = (done ++ in_flight (worker_at (exec wh pf sl ep sched (started evs0))))%list
    /\ forall p, In p done ->
         In (Post wh (payload_content p))
            (effects (exec wh pf sl ep sched (started evs0))).
Proof.
  apply (exec_invariant wh pf sl ep
           (fun s => exists done,
                invoked s = (done ++ in_flight (worker_at s))%list
                /\ forall p, In p done ->
                     In (Post wh (payload_content p)) (effects s))).
  - intros l s s' (done & Hinv & Hdone) Hstep.
    destruct (step_worker wh pf sl ep l s s' Hstep)
      as [(Hw' & Hi & _ & He)
         | [(Hw & He & _ & [[Hw' Hi] | (p & Hw' & Hi)])
           | (p & fuel & Hws & Hi & He & _ & Hend)]].
    + exists done. rewrite Hw', Hi. split; [assumption|].
      intros p Hp. specialize (Hdone p Hp).
      assert (Hin : In (Post wh (payload_content p)) (posts (effects s'))).
      { rewrite He. unfold posts. apply filter_In. now split. }
      unfold posts in Hin. now apply filter_In in Hin.
    + exists done. rewrite Hw', Hi, He, Hinv, Hw. split; [reflexivity|].
      assumption.
    + exists done. rewrite Hw', Hi, He, Hinv, Hw. simpl.
      rewrite app_nil_r. split; [reflexivity | assumption].
    + destruct Hend as [[Ho Hw'] | [(e' & Ho & Hw') | [Ho Hw']]].
      * exists (done ++ [p])%list. rewrite Hi, He, Hinv, Hws. simpl. split.
        -- destruct Hw' as [H | [H _]]; rewrite H; simpl;
             now rewrite app_nil_r.
        -- intros p' Hp'. apply in_or_app.
           apply in_app_or in Hp' as [Hp' | [<- | []]]; [left; auto|].
           right. apply ended_run_posted. rewrite Ho. discriminate.
      * exists (done ++ [p])%list. rewrite Hi, He, Hinv, Hws, Hw'. simpl.
        split; [now rewrite app_nil_r|].
        intros p' Hp'. apply in_or_app.
        apply in_app_or in Hp' as [Hp' | [<- | []]]; [left; auto|].
        right. apply ended_run_posted. rewrite Ho. discriminate.
      * exists done. rewrite Hi, He, Hinv, Hws, Hw'. simpl.
        split; [reflexivity|].
        intros p' Hp'. apply in_or_app. left. auto.
  - exists []. simpl. split; [reflexivity | tauto].
Qed.

End Reachable.

(** The worker thread is ended by an exception only when [time.sleep]
    refuses the wait of a 429 answer, and the exception is the one
    [time.sleep] raised.  [task_done()] on line 136 cannot raise: while a
    delivery is under way at least one task is unfinished. *)
Theorem worker_dies_only_from_sleep (wh : option string)
    (pf : string -> option pyfloat) (sl : Q -> option pyexc) (ep : Endpoint)
    (evs0 : list event) (sched : list label) :
  (forall p, worker_at (exec wh pf sl ep sched (started evs0)) = WSending p ->
             exists q,
               task_done (queue (exec wh pf sl ep sched (started evs0)))
               = Some q)
  /\ (forall e, worker_at (exec wh pf sl ep sched (started evs0)) = WDied e ->
                exists k r, ep k = PostReturns r /\ status_code r = 429%Z
                            /\ sleep_float sl (wait_seconds pf r) = Some e).
Proof.
  split.
  - intros p Hw.
    destruct (exec_consistent wh pf sl ep sched (started evs0)
                (started_consistent evs0)) as (_ & Hc & _).
    rewrite Hw in Hc. simpl in Hc. unfold task_done.
    destruct (unfinished_tasks (queue (exec wh pf sl ep sched
                                         (started evs0))));
      [lia | eexists; reflexivity].
  - intros e. apply worker_death_cause.
Qed.

Lemma worker_dies_only_from_sleep_witness :
  exists k r,
    always (PostReturns (mkResponse 429 (Some "-1") "")) k = PostReturns r
    /\ status_code r = 429%Z
    /\ sleep_float refuse_long (wait_seconds decimal_float r)
       = Some negative_error.
Proof.
  apply (proj2 (worker_dies_only_from_sleep None decimal_float refuse_long
                  (always (PostReturns (mkResponse 429 (Some "-1") ""))) []
                  [Created (mkEvent false "/data/a.txt"); WorkerGet;
                   WorkerSend 1])
           negative_error).
  reflexivity.
Defined.

(** Every POST the process makes is the notification of a file the handler
    observed: its payload is built from the path of a creation event that
    was not a directory.  Nothing is posted for a directory, nor before a
    file event. *)
Theorem posts_only_for_observed_files (wh : option string)
    (monitor_dir : string) (isdir : string -> bool)
    (pf : string -> option pyfloat) (sl : Q -> option pyexc)
    (ep : Endpoint) (evs : list event)
    (s0 : system) (sched : list label) (e : event) :
  main_startup wh monitor_dir isdir = (evs, Some s0) ->
  In e (posts (effects (exec wh pf sl ep sched s0))) ->
  exists p,
    In p (file_paths (observed (exec wh pf sl ep sched s0)))
    /\ e = Post wh (payload_content p).
Proof.
  intros Hstart Hin.
  destruct (main_startup_started wh monitor_dir isdir evs s0 Hstart)
    as [-> Hno].
  destruct (posts_trace_back wh pf sl ep evs sched e Hin)
    as [H | (p & Hp & ->)].
  - rewrite Hno in H. destruct H.
  - exists p. split; [|reflexivity].
    destruct (exec_consistent wh pf sl ep sched (started evs)
                (started_consistent evs)) as (Hf & _).
    rewrite Hf. apply in_or_app. now left.
Qed.

Lemma posts_only_for_observed_files_witness :
  exists p,
    In p ["/data/a.txt"]
    /\ Post (Some "https://discord.test/hook") (payload_content "/data/a.txt")
       = Post (Some "https://discord.test/hook") (payload_content p).
Proof.
  apply (posts_only_for_observed_files (Some "https://discord.test/hook")
           "/data" (fun _ => true) decimal_float refuse_long
           (always (PostReturns (mkResponse 204 None "")))
           [ObserverSchedule "/data" false; ObserverStart;
            Log INFO (MsgWatching "/data"); ThreadStart]
           (started [ObserverSchedule "/data" false; ObserverStart;
                     Log INFO (MsgWatching "/data"); ThreadStart])
           [Created (mkEvent true "/data/d");
            Created (mkEvent false "/data/a.txt"); WorkerGet; WorkerSend 1]
           (Post (Some "https://discord.test/hook")
                 (payload_content "/data/a.txt"))).
  - reflexivity.
  - simpl. now left.
Defined.

(** Every file the worker is done with was posted at least once: a path
    handed to [send_discord_message] either has its notification among the
    POSTs made, or is the one being delivered. *)
Theorem finished_files_were_posted (wh : option string)
    (pf : string -> option pyfloat) (sl : Q -> option pyexc)
    (ep : Endpoint) (evs0 : list event)
    (sched : list label) (p : string) :
  In p (invoked (exec wh pf sl ep sched (started evs0))) ->
  In (Post wh (payload_content p))
     (effects (exec wh pf sl ep sched (started evs0)))
  \/ worker_at (exec wh pf sl ep sched (started evs0)) = WSending p.
Proof.
  intros Hin.
  destruct (finished_posted wh pf sl ep evs0 sched) as (done & Hinv & Hdone).
  rewrite Hinv in Hin. apply in_app_or in Hin as [Hin | Hin].
  - left. now apply Hdone.
  - right.
    destruct (worker_at (exec wh pf sl ep sched (started evs0)));
      simpl in Hin; try tauto.
    destruct Hin as [-> | []]. reflexivity.
Qed.

Lemma finished_files_were_posted_witness :
  In (Post None (payload_content "/data/a.txt"))
     (effects (exec None decimal_float refuse_long
                 (always (PostReturns (mkResponse 500 None "error")))
                 [Created (mkEvent false "/data/a.txt"); WorkerGet;
                  WorkerSend 1]
                 (started [])))
  \/ worker_at (exec None decimal_float refuse_long
                  (always (PostReturns (mkResponse 500 None "error")))
                  [Created (mkEvent false "/data/a.txt"); WorkerGet;
                   WorkerSend 1]
                  (started [])) = WSending "/data/a.txt".
Proof.
  apply (finished_files_were_posted None decimal_float refuse_long
           (always (PostReturns (mkResponse 500 None "error"))) []
           [Created (mkEvent false "/data/a.txt"); WorkerGet; WorkerSend 1]
           "/data/a.txt").
  simpl. now left.
Defined.

(** Once the worker thread has ended, by the sentinel or by an exception,
    nothing more is delivered whatever happens next: no further call of
    [send_discord_message], no further POST, while the handler may go on
    queueing files. *)
Theorem ended_worker_delivers_nothing (wh : option string)
    (pf : string -> option pyfloat) (sl : Q -> option pyexc)
    (ep : Endpoint) (s : system)
    (sched : list label) :
  worker_at s = WExited \/ (exists e, worker_at s = WDied e) ->
  worker_at (exec wh pf sl ep sched s) = worker_at s
  /\ invoked (exec wh pf sl ep sched s) = invoked s
  /\ net (exec wh pf sl ep sched s) = net s
  /\ posts (effects (exec wh pf sl ep sched s)) = posts (effects s).
Proof.
  intros Hend.
  apply (exec_invariant wh pf sl ep
           (fun s' => worker_at s' = worker_at s /\ invoked s' = invoked s
                      /\ net s' = net s
                      /\ posts (effects s') = posts (effects s))); [|auto].
  intros l s1 s2 (Hw & Hi & Hn & Hp) Hstep.
  destruct (step_worker wh pf sl ep l s1 s2 Hstep)
    as [(Hw' & Hi' & Hn' & Hp') | [(Hg & _) | (p & fuel & Hs & _)]].
  - repeat split; congruence.
  - exfalso. rewrite Hw in Hg.
    destruct Hend as [H | (e & H)]; congruence.
  - exfalso. rewrite Hw in Hs.
    destruct Hend as [H | (e & H)]; congruence.
Qed.

Lemma ended_worker_delivers_nothing_witness :
  invoked (exec None decimal_float refuse_long
             (always (PostReturns (mkResponse 204 None "")))
             [Created (mkEvent false "/data/b.txt"); WorkerGet; WorkerSend 1]
             (mkSystem (mkQueue [] 1) MWatching (WDied negative_error) 1
                [] [mkEvent false "/data/a.txt"] ["/data/a.txt"]))
  = ["/data/a.txt"].
Proof.
  apply (ended_worker_delivers_nothing None decimal_float refuse_long
           (always (PostReturns (mkResponse 204 None "")))
           (mkSystem (mkQueue [] 1) MWatching (WDied negative_error) 1
              [] [mkEvent false "/data/a.txt"] ["/data/a.txt"])
           [Created (mkEvent false "/data/b.txt"); WorkerGet; WorkerSend 1]).
  right. now exists negative_error.
Defined.

Lemma stuck_at_most_one (wh : option string)
    (pf : string -> option pyfloat) (sl : Q -> option pyexc) (ep : Endpoint)
    (evs0 : list event) (sched : list label) :
  (forall fuel k path,
     outcome (send_discord_message wh pf sl fuel ep k path) = Running) ->
  length (invoked (exec wh pf sl ep sched (started evs0))) <= 1.
Proof.
  intros Hstuck.
  apply (exec_invariant wh pf sl ep
           (fun s => length (invoked s) <= 1
                     /\ (worker_at s = WGet -> invoked s = []))).
  - intros l s s' (Hlen & Hg) Hstep.
    destruct (step_worker wh pf sl ep l s s' Hstep)
      as [(Hw' & Hi' & _)
         | [(Hw & _ & _ & [[Hw' Hi] | (p & Hw' & Hi)])
           | (p & fuel & _ & Hi & _ & _ & Hend)]].
    + rewrite Hw', Hi'. auto.
    + rewrite Hw', Hi. split; [assumption | discriminate].
    + rewrite Hw', Hi, (Hg Hw). simpl. split; [lia | discriminate].
    + rewrite Hstuck in Hend.
      destruct Hend as [[H _] | [(e & H & _) | [_ Hw']]]; try discriminate.
      rewrite Hw', Hi. split; [assumption | discriminate].
  - simpl. auto.
Qed.

(** While no delivery ever ends, neither returning nor raising (an endpoint
    that cannot be reached, or one that keeps answering 429 with an accepted
    wait), the worker takes one file from the queue and no other: every
    later file stays queued behind it, in order. *)
Theorem stuck_delivery_blocks_queue (wh : option string)
    (pf : string -> option pyfloat) (sl : Q -> option pyexc) (ep : Endpoint)
    (evs0 : list event) (sched : list label) :
  (forall fuel k path,
     outcome (send_discord_message wh pf sl fuel ep k path) = Running) ->
  length (invoked (exec wh pf sl ep sched (started evs0))) <= 1
  /\ file_paths (observed (exec wh pf sl ep sched (started evs0)))
     = (invoked (exec wh pf sl ep sched (started evs0))
        ++ pending (items (queue (exec wh pf sl ep sched
                                    (started evs0)))))%list.
Proof.
  intros Hstuck.
  destruct (exec_consistent wh pf sl ep sched (started evs0)
              (started_consistent evs0)) as (Hf & _).
  split; [now apply stuck_at_most_one | exact Hf].
Qed.

Lemma stuck_delivery_blocks_queue_witness :
  length (invoked (exec None decimal_float refuse_long
                     (always (PostRaises (PyExc "ConnectionError" "down")))
                     [Created (mkEvent false "/data/a.txt");
                      Created (mkEvent false "/data/b.txt");
                      WorkerGet; WorkerSend 50; WorkerGet; WorkerSend 900]
                     (started []))) <= 1.
Proof.
  apply (stuck_delivery_blocks_queue None decimal_float refuse_long
           (always (PostRaises (PyExc "ConnectionError" "down"))) []
           [Created (mkEvent false "/data/a.txt");
            Created (mkEvent false "/data/b.txt");
            WorkerGet; WorkerSend 50; WorkerGet; WorkerSend 900]).
  intros fuel k path. apply send_always_raises.
Defined.

Lemma sentinel_after_observer_witness :
  ~ In None (items (queue (exec None decimal_float refuse_long
                             (always (PostReturns (mkResponse 204 None "")))
                             [Created (mkEvent false "/data/a.txt");
                              Interrupt; ObserverJoined]
                             (started []))))
  /\ worker_at (exec None decimal_float refuse_long
                  (always (PostReturns (mkResponse 204 None "")))
                  [Created (mkEvent false "/data/a.txt");
                   Interrupt; ObserverJoined]
                  (started [])) <> WExited.
Proof.
  apply (sentinel_after_observer None decimal_float refuse_long
           (always (PostReturns (mkResponse 204 None ""))) []
           [Created (mkEvent false "/data/a.txt"); Interrupt;
            ObserverJoined]).
  discriminate.
Defined.

Lemma step_keeps_watching (wh : option string)
    (pf : string -> option pyfloat) (sl : Q -> option pyexc)
    (ep : Endpoint) (l : label)
    (s s' : system) :
  l <> Interrupt -> main_at s = MWatching ->
  step wh pf sl ep l s = Some s' -> main_at s' = MWatching.
Proof.
  intros Hl Hm H. destruct s as [q m w n eff obs inv]. simpl in Hm. subst m.
  destruct l; try congruence;
    cbn [step observer_dispatch main_shutdown worker main_at] in H;
    try discriminate H; step_inv H; reflexivity.
Qed.

(** Without a KeyboardInterrupt the process never starts to shut down:
    [main] stays in its loop, the sentinel is never queued and the worker
    never leaves its loop through the [break] of line 134, however many
    files come and go (only an exception can end it). *)
Theorem runs_until_interrupted (wh : option string)
    (pf : string -> option pyfloat) (sl : Q -> option pyexc)
    (ep : Endpoint) (evs0 : list event)
    (sched : list label) :
  ~ In Interrupt sched ->
  main_at (exec wh pf sl ep sched (started evs0)) = MWatching
  /\ ~ In None (items (queue (exec wh pf sl ep sched (started evs0))))
  /\ worker_at (exec wh pf sl ep sched (started evs0)) <> WExited.
Proof.
  intros Hno.
  assert (Hm : main_at (exec wh pf sl ep sched (started evs0)) = MWatching).
  { assert (G : forall s, main_at s = MWatching ->
                          main_at (exec wh pf sl ep sched s) = MWatching).
    { induction sched as [|l rest IH]; intros s Hs; simpl; [assumption|].
      assert (Hl : l <> Interrupt) by (intros ->; apply Hno; now left).
      assert (Hrest : ~ In Interrupt rest)
        by (intros Hin; apply Hno; now right).
      destruct (step wh pf sl ep l s) as [s'|] eqn:Hstep.
      - apply (IH Hrest).
        now apply (step_keeps_watching wh pf sl ep l s s').
      - now apply (IH Hrest). }
    now apply G. }
  split; [assumption|].
  destruct (exec_consistent wh pf sl ep sched (started evs0)
              (started_consistent evs0)) as (_ & _ & Hs).
  unfold sentinel_ok in Hs. rewrite Hm in Hs. exact Hs.
Qed.

Lemma runs_until_interrupted_witness :
  main_at (exec None decimal_float refuse_long
             (always (PostReturns (mkResponse 204 None "")))
             [Created (mkEvent false "/data/a.txt"); WorkerGet; WorkerSend 1;
              ObserverJoined; PutSentinel; QueueJoined; WorkerGet]
             (started [])) = MWatching.
Proof.
  apply (runs_until_interrupted None decimal_float refuse_long
           (always (PostReturns (mkResponse 204 None ""))) []
           [Created (mkEvent false "/data/a.txt"); WorkerGet; WorkerSend 1;
            ObserverJoined; PutSentinel; QueueJoined; WorkerGet]).
  simpl. intuition discriminate.
Defined.

(** ** Order of delivery *)




Section Deliveries.

Variable wh : option string.
Variable pf : string -> option pyfloat.
Variable sl : Q -> option pyexc.
Variable ep : Endpoint.
Variable evs0 : list event.


End Deliveries.



